(** * Alert and health lifecycle of the monitoring dashboard API

    A shallow embedding of the API server's alert and health logic
    (the Express application: dashboard summary, alert acknowledgment,
    restart request and the five-minute health-check job) over the
    relational schema of [db/init.sql].

    The store is a record of tables (lists of rows, in table order), the
    Redis cache is the single key ['dashboard:summary'] with its expiry
    time, and every [await]ed query is given its fate by the environment:
    it either runs at some transaction time ([NOW()]) or rejects, which
    throws into the enclosing [try]/[catch]. The rendering of an average
    by [parseFloat] and [toFixed(1)] is floating point and is a
    parameter. *)

From Stdlib Require Import String ZArith QArith Bool Lia List.
From Stdlib Require Import Sorted Permutation.
Import ListNotations.
Local Open Scope string_scope.
Local Open Scope list_scope.
Local Open Scope Z_scope.

(** ** Enumerated types of [db/init.sql] *)

Inductive alert_severity := critical | warning | info.
Inductive server_status := online | offline | maintenance | degraded.
Inductive user_role := admin | operator | viewer.

Definition severity_eqb (a b : alert_severity) : bool :=
  match a, b with
  | critical, critical | warning, warning | info, info => true
  | _, _ => false
  end.

Definition status_eqb (a b : server_status) : bool :=
  match a, b with
  | online, online | offline, offline
  | maintenance, maintenance | degraded, degraded => true
  | _, _ => false
  end.

(** Timestamps are seconds on the clock of the database server. *)
Definition timestamp := Z.

(** ** Tables *)

(** [servers]: the columns the API reads or writes; the informational
    columns (uuid, hostname, os, capacity, location) are never touched by
    the code and are left out. *)
Module Server.
Record row := mk {
  id : Z;
  name : string;
  ip_address : string;
  status : server_status;
  last_checked : option timestamp;
  last_restart : option timestamp;
  restart_requested_by : option Z;
  created_at : timestamp;
  updated_at : timestamp
}.
End Server.

Module Container.
Record row := mk {
  id : Z;
  name : string;
  image : string;
  server_id : option Z
}.
End Container.

(** [server_metrics]: the three usage percentages and the sample time. *)
Module Metric.
Record row := mk {
  id : Z;
  server_id : option Z;
  cpu_usage : Q;
  memory_usage : Q;
  disk_usage : Q;
  timestamp : Z
}.
End Metric.

(** [alerts], all columns but the generated uuid. *)
Module Alert.
Record row := mk {
  id : Z;
  server_id : option Z;
  container_id : option Z;
  severity : alert_severity;
  source : option string;
  message : string;
  details : option string;
  acknowledged : bool;
  acknowledged_by : option Z;
  acknowledged_at : option timestamp;
  resolved : bool;
  resolved_by : option Z;
  resolved_at : option timestamp;
  created_at : timestamp;
  updated_at : timestamp
}.
End Alert.

(** The store. [alerts_id_seq] is the last value handed out by the
    SERIAL sequence of [alerts.id]. *)
Record database := mkDatabase {
  servers : list Server.row;
  containers : list Container.row;
  server_metrics : list Metric.row;
  alerts : list Alert.row;
  alerts_id_seq : Z
}.

Definition set_servers (l : list Server.row) (d : database) : database :=
  mkDatabase l (containers d) (server_metrics d) (alerts d) (alerts_id_seq d).

Definition set_alerts (l : list Alert.row) (seq : Z) (d : database) : database :=
  mkDatabase (servers d) (containers d) (server_metrics d) l seq.

(** ** Queries *)

(** The fate of one awaited query: it runs in a transaction started at
    [now], or the promise rejects and nothing is written. *)
Inductive fate := Runs (now : timestamp) | Rejects.

(** [SELECT id, ip_address FROM servers WHERE status = 'online']. The
    query has no ORDER BY: the rows come in the order of the list that
    stands for the table, which is any order the database may return
    them in. What is proved of one pass holds for every such order; no
    statement compares the order of two results of the query. *)
Definition select_online (d : database) : list (Z * string) :=
  map (fun s => (Server.id s, Server.ip_address s))
      (filter (fun s => status_eqb (Server.status s) online) (servers d)).

(** [UPDATE servers SET last_checked = NOW(), status = $1 WHERE id = $2];
    the BEFORE UPDATE trigger stamps [updated_at]. *)
Definition check_row (st : server_status) (sid : Z) (now : timestamp)
    (s : Server.row) : Server.row :=
  if Server.id s =? sid then
    Server.mk (Server.id s) (Server.name s) (Server.ip_address s) st
              (Some now) (Server.last_restart s)
              (Server.restart_requested_by s) (Server.created_at s) now
  else s.

Definition update_server_status (st : server_status) (sid : Z)
    (now : timestamp) (d : database) : database :=
  set_servers (map (check_row st sid now) (servers d)) d.

(** [UPDATE servers SET last_restart = NOW(), restart_requested_by = $1
     WHERE id = $2] *)
Definition restart_row (uid sid : Z) (now : timestamp) (s : Server.row)
    : Server.row :=
  if Server.id s =? sid then
    Server.mk (Server.id s) (Server.name s) (Server.ip_address s)
              (Server.status s) (Server.last_checked s) (Some now)
              (Some uid) (Server.created_at s) now
  else s.

Definition update_server_restart (uid sid : Z) (now : timestamp)
    (d : database) : database :=
  set_servers (map (restart_row uid sid now) (servers d)) d.

(** [INSERT INTO alerts (server_id, severity, message, created_at)
     VALUES ($1, 'critical', 'Server <ip> is not responding', NOW())];
    every other column takes its default. *)
Definition not_responding (ip : string) : string :=
  ("Server " ++ ip ++ " is not responding")%string.

Definition new_alert (aid sid : Z) (ip : string) (now : timestamp)
    : Alert.row :=
  Alert.mk aid (Some sid) None critical None (not_responding ip) None
           false None None false None None now now.

Definition insert_alert (sid : Z) (ip : string) (now : timestamp)
    (d : database) : database :=
  let aid := alerts_id_seq d + 1 in
  set_alerts (alerts d ++ [new_alert aid sid ip now]) aid d.

(** A value of the sequence of [alerts.id] drawn and not used. *)
Definition skip_alert_id (d : database) : database :=
  set_alerts (alerts d) (alerts_id_seq d + 1) d.

(** [UPDATE alerts SET acknowledged = true, acknowledged_by = $1,
     acknowledged_at = NOW() WHERE id = $2]; the BEFORE UPDATE trigger
    stamps [updated_at]. *)
Definition ack_row (uid aid : Z) (now : timestamp) (a : Alert.row)
    : Alert.row :=
  if Alert.id a =? aid then
    Alert.mk (Alert.id a) (Alert.server_id a) (Alert.container_id a)
             (Alert.severity a) (Alert.source a) (Alert.message a)
             (Alert.details a) true (Some uid) (Some now)
             (Alert.resolved a) (Alert.resolved_by a) (Alert.resolved_at a)
             (Alert.created_at a) now
  else a.

Definition update_alert_ack (uid aid : Z) (now : timestamp) (d : database)
    : database :=
  set_alerts (map (ack_row uid aid now) (alerts d)) (alerts_id_seq d) d.

(** [SELECT COUNT( * ) FROM servers WHERE status = 'online'] *)
Definition count_online_servers (d : database) : nat :=
  length (filter (fun s => status_eqb (Server.status s) online) (servers d)).

(** [SELECT COUNT( * ) FROM containers] *)
Definition count_containers (d : database) : nat := length (containers d).

(** [SELECT severity, COUNT( * ) FROM alerts WHERE acknowledged = false
     GROUP BY severity]: one result row per severity that occurs among
    the unacknowledged alerts. *)
Fixpoint bump (sev : alert_severity) (groups : list (alert_severity * nat))
    : list (alert_severity * nat) :=
  match groups with
  | [] => [(sev, 1%nat)]
  | (s, n) :: rest =>
      if severity_eqb s sev then (s, S n) :: rest else (s, n) :: bump sev rest
  end.

Definition unacknowledged (a : Alert.row) : bool := negb (Alert.acknowledged a).

Definition group_by_severity (rows : list Alert.row)
    : list (alert_severity * nat) :=
  fold_left (fun groups a => bump (Alert.severity a) groups)
            (filter unacknowledged rows) [].

Definition select_alert_counts (d : database) : list (alert_severity * nat) :=
  group_by_severity (alerts d).

(** [SELECT AVG(cpu_usage), AVG(memory_usage), AVG(disk_usage)
     FROM server_metrics WHERE timestamp > NOW() - INTERVAL '1 hour'];
    an average over no rows is NULL. *)
Definition avg (l : list Q) : option Q :=
  match l with
  | [] => None
  | _ => Some (fold_right Qplus 0%Q l / inject_Z (Z.of_nat (length l)))%Q
  end.

Definition recent (now : timestamp) (m : Metric.row) : bool :=
  now - 3600 <? Metric.timestamp m.

Definition select_system_metrics (now : timestamp) (d : database)
    : option Q * option Q * option Q :=
  let rows := filter (recent now) (server_metrics d) in
  (avg (map Metric.cpu_usage rows),
   avg (map Metric.memory_usage rows),
   avg (map Metric.disk_usage rows)).

(** ** The dashboard summary *)

Module Counts.
Record t := mk { critical : nat; warning : nat; info : nat }.
End Counts.

Module Resources.
Record t := mk { cpu : string; memory : string; storage : string }.
End Resources.

Module Summary.
Record t := mk {
  totalServers : nat;
  totalContainers : nat;
  uptime : Q;
  alerts : Counts.t;
  resources : Resources.t;
  lastUpdated : timestamp
}.
End Summary.

(** [summary.alerts[row.severity] = parseInt(row.count)] *)
Definition set_count (c : Counts.t) (row : alert_severity * nat) : Counts.t :=
  match fst row with
  | critical => Counts.mk (snd row) (Counts.warning c) (Counts.info c)
  | warning => Counts.mk (Counts.critical c) (snd row) (Counts.info c)
  | info => Counts.mk (Counts.critical c) (Counts.warning c) (snd row)
  end.

Definition get_count (c : Counts.t) (sev : alert_severity) : nat :=
  match sev with
  | critical => Counts.critical c
  | warning => Counts.warning c
  | info => Counts.info c
  end.

(** [get_alert_summary()] of [db/init.sql]: the three filtered counts and
    their total. *)
Definition count_where (p : Alert.row -> bool) (rows : list Alert.row) : nat :=
  length (filter p rows).

Definition get_alert_summary (d : database) : nat * nat * nat * nat :=
  (count_where (fun a => severity_eqb (Alert.severity a) critical
                         && negb (Alert.acknowledged a)) (alerts d),
   count_where (fun a => severity_eqb (Alert.severity a) warning
                         && negb (Alert.acknowledged a)) (alerts d),
   count_where (fun a => severity_eqb (Alert.severity a) info
                         && negb (Alert.acknowledged a)) (alerts d),
   count_where (fun a => negb (Alert.acknowledged a)) (alerts d)).

(** ** Cache, log and process state *)

(** The Redis key ['dashboard:summary']: the stored value (the summary;
    [JSON.parse] undoes [JSON.stringify]) and the time it expires. *)
Record cache_entry := mkEntry { cached : Summary.t; expires_at : timestamp }.

Definition redis_get (now : timestamp) (r : option cache_entry)
    : option Summary.t :=
  match r with
  | Some e => if now <? expires_at e then Some (cached e) else None
  | None => None
  end.

Definition redis_setEx (ttl : Z) (v : Summary.t) (now : timestamp)
    : option cache_entry :=
  Some (mkEntry v (now + ttl)).

(** What the handlers and the job write to the logger. The line and the
    histogram observation that the request-logging middleware adds to
    every finished response, and the body parser in front of the
    routes, are not part of the model: [log] holds the lines of the
    handlers and of the job only. *)
Inductive log_entry :=
| info_running_health_check
| info_health_check_completed
| error_health_check_failed
| info_alert_acknowledged (aid uid : Z)
| error_acknowledge_failed
| info_restart_requested (sid uid : Z)
| error_restart_failed
| error_summary_failed.

Record world := mkWorld {
  db : database;
  redis : option cache_entry;
  activeAlerts : option Counts.t;
  log : list log_entry
}.

Definition set_db (d : database) (w : world) : world :=
  mkWorld d (redis w) (activeAlerts w) (log w).

Definition set_redis (r : option cache_entry) (w : world) : world :=
  mkWorld (db w) r (activeAlerts w) (log w).

Definition set_gauge (c : Counts.t) (w : world) : world :=
  mkWorld (db w) (redis w) (Some c) (log w).

Definition logger (e : log_entry) (w : world) : world :=
  mkWorld (db w) (redis w) (activeAlerts w) (log w ++ [e]).

(** ** HTTP *)

Inductive body :=
| json_summary (s : Summary.t)
| json_success
| json_restart (now : timestamp)
| json_error (msg : string).

Definition response := (Z * body)%type.

(** The decoded token: the actor's id and role. *)
Record jwt_payload := mkUser { user_id : Z; role : user_role }.

(** The Authorization header as [authenticate] sees it: absent, present
    but rejected by [jwt.verify], or verified with its payload. *)
Inductive authorization :=
| no_token
| invalid_token
| bearer (user : jwt_payload).

Definition authenticate (auth : authorization)
    (next : jwt_payload -> world -> response * world) (w : world)
    : response * world :=
  match auth with
  | no_token => ((401, json_error "Authentication required"), w)
  | invalid_token => ((401, json_error "Invalid token"), w)
  | bearer user => next user w
  end.

(** *** GET /api/dashboard/summary: what the environment decides *)

Record summary_env := mkSummaryEnv {
  cache_get : fate;
  counts_query : fate;
  metrics_query : fate;
  clock : timestamp;
  cache_set : fate
}.

(** *** POST /api/alerts/:id/acknowledge *)

Definition acknowledge (aid : Z) (query : fate) (user : jwt_payload)
    (w : world) : response * world :=
  match query with
  | Runs now =>
      ((200, json_success),
       logger (info_alert_acknowledged aid (user_id user))
              (set_db (update_alert_ack (user_id user) aid now (db w)) w))
  | Rejects =>
      ((500, json_error "Failed to acknowledge alert"),
       logger error_acknowledge_failed w)
  end.

(** *** POST /api/servers/:id/restart *)

Definition restart (sid : Z) (query : fate) (clock : timestamp)
    (user : jwt_payload) (w : world) : response * world :=
  match query with
  | Runs now =>
      ((200, json_restart clock),
       logger (info_restart_requested sid (user_id user))
              (set_db (update_server_restart (user_id user) sid now (db w)) w))
  | Rejects =>
      ((500, json_error "Failed to restart server"),
       logger error_restart_failed w)
  end.

(** ** The scheduled health check *)

(** What the environment decides in one iteration of the loop: the
    outcome of [Math.random() > 0.1], the fates of the two queries and,
    for an INSERT that rejects, whether the statement had already drawn
    its id from the sequence, which a failed statement does not give
    back. *)
Record probe := mkProbe {
  isHealthy : bool;
  update_servers : fate;
  insert_alerts : fate;
  insert_draws_id : bool
}.

Record tick_env := mkTick {
  select_servers : fate;
  probes : nat -> probe
}.

(** The [for] loop over [servers.rows], from iteration [i] on. The flag
    is [false] when a query threw, which leaves the loop. *)
Fixpoint health_loop (p : nat -> probe) (i : nat) (rows : list (Z * string))
    (d : database) : bool * database :=
  match rows with
  | [] => (true, d)
  | (sid, ip) :: rest =>
      match update_servers (p i) with
      | Rejects => (false, d)
      | Runs t_update =>
          let d1 :=
            update_server_status
              (if isHealthy (p i) then online else offline) sid t_update d in
          if isHealthy (p i) then health_loop p (S i) rest d1
          else
            match insert_alerts (p i) with
            | Rejects =>
                (false, if insert_draws_id (p i) then skip_alert_id d1 else d1)
            | Runs t_insert =>
                health_loop p (S i) rest (insert_alert sid ip t_insert d1)
            end
      end
  end.

(** The cron callback: one sampling pass inside one [try]/[catch]. *)
Definition health_check (e : tick_env) (w : world) : world :=
  let w0 := logger info_running_health_check w in
  match select_servers e with
  | Rejects => logger error_health_check_failed w0
  | Runs _ =>
      let '(completed, d) := health_loop (probes e) 0 (select_online (db w0)) (db w0) in
      if completed then logger info_health_check_completed (set_db d w0)
      else logger error_health_check_failed (set_db d w0)
  end.

(** ** The read-only routes *)

(** The two listing routes read the store and leave the process state as
    it is; their only other effect, the line logged on a failure, is
    returned beside the answer. *)
Inductive read_log :=
| error_fetch_alerts_failed
| error_fetch_servers_failed.

Inductive rows_body (R : Type) :=
| json_rows (rows : list R)
| json_rows_error (msg : string).

Arguments json_rows {R} rows.
Arguments json_rows_error {R} msg.


(** *** GET /api/alerts *)

(** [WHERE acknowledged = false], with [AND severity = $1] when the
    request names a severity. *)
Definition listed (sev : option alert_severity) (a : Alert.row) : bool :=
  unacknowledged a
  && match sev with
     | Some s => severity_eqb (Alert.severity a) s
     | None => true
     end.

(** [ORDER BY created_at DESC]; rows created at the same time keep their
    table order. *)
Fixpoint insert_newest (a : Alert.row) (sorted : list Alert.row)
    : list Alert.row :=
  match sorted with
  | [] => [a]
  | b :: rest =>
      if Alert.created_at b <=? Alert.created_at a then a :: b :: rest
      else b :: insert_newest a rest
  end.

Definition order_by_created_at_desc (rows : list Alert.row) : list Alert.row :=
  fold_right insert_newest [] rows.

(** [SELECT * FROM alerts WHERE ... ORDER BY created_at DESC LIMIT n] *)
Definition select_open_alerts (sev : option alert_severity) (n : nat)
    (d : database) : list Alert.row :=
  firstn n (order_by_created_at_desc (filter (listed sev) (alerts d))).

(** [const { limit = 50, severity } = req.query]: the parsed limit when
    the request carries one, and the severity when it names one. A value
    the database refuses (a limit that is not a non-negative integer, a
    severity outside the enumeration) makes the query reject. *)
Definition limit_or_default (limit : option nat) : nat :=
  match limit with Some n => n | None => 50%nat end.

Definition get_alerts (limit : option nat) (sev : option alert_severity)
    (query : fate) (user : jwt_payload) (w : world)
    : (Z * rows_body Alert.row) * list read_log :=
  match query with
  | Runs _ =>
      ((200, json_rows (select_open_alerts sev (limit_or_default limit) (db w))),
       [])
  | Rejects =>
      ((500, json_rows_error "Failed to fetch alerts"),
       [error_fetch_alerts_failed])
  end.

(** *** GET /api/servers *)

(** A row of the listing: the server's columns and the four columns
    taken from the joined sample, NULL when no sample is joined. *)
Module Listing.
Record row := mk {
  server : Server.row;
  cpu_usage : option Q;
  memory_usage : option Q;
  disk_usage : option Q;
  last_updated : option timestamp
}.
End Listing.

(** The samples of one server: [server_metrics.server_id = s.id]. *)
Definition sample_of (sid : Z) (m : Metric.row) : bool :=
  match Metric.server_id m with Some x => x =? sid | None => false end.

Definition samples_of (sid : Z) (d : database) : list Metric.row :=
  filter (sample_of sid) (server_metrics d).

(** [SELECT MAX(timestamp) FROM server_metrics WHERE server_id = s.id] *)
Definition max_timestamp (l : list Metric.row) : option timestamp :=
  match l with
  | [] => None
  | m :: rest =>
      Some (fold_left (fun t x => Z.max t (Metric.timestamp x)) rest
                      (Metric.timestamp m))
  end.

(** [servers s LEFT JOIN server_metrics sm ON s.id = sm.server_id]: one
    row per sample of the server, or one row without sample. *)
Definition left_join (d : database) (s : Server.row)
    : list (Server.row * option Metric.row) :=
  match samples_of (Server.id s) d with
  | [] => [(s, None)]
  | l => map (fun m => (s, Some m)) l
  end.

(** [WHERE sm.timestamp = (SELECT MAX ...) OR sm.timestamp IS NULL] *)
Definition latest_or_null (d : database) (r : Server.row * option Metric.row)
    : bool :=
  match snd r with
  | None => true
  | Some m =>
      match max_timestamp (samples_of (Server.id (fst r)) d) with
      | Some t => Metric.timestamp m =? t
      | None => false
      end
  end.

Definition listing_row (r : Server.row * option Metric.row) : Listing.row :=
  match snd r with
  | Some m =>
      Listing.mk (fst r) (Some (Metric.cpu_usage m))
                 (Some (Metric.memory_usage m)) (Some (Metric.disk_usage m))
                 (Some (Metric.timestamp m))
  | None => Listing.mk (fst r) None None None None
  end.

(** [ORDER BY s.name], under the collation of the database, which is a
    parameter [name_leb] of the query. *)
Fixpoint insert_by_name (name_leb : string -> string -> bool)
    (r : Listing.row) (sorted : list Listing.row) : list Listing.row :=
  match sorted with
  | [] => [r]
  | x :: rest =>
      if name_leb (Server.name (Listing.server r))
                  (Server.name (Listing.server x))
      then r :: x :: rest
      else x :: insert_by_name name_leb r rest
  end.

Definition order_by_name (name_leb : string -> string -> bool)
    (rows : list Listing.row) : list Listing.row :=
  fold_right (insert_by_name name_leb) [] rows.

Definition select_server_listing (name_leb : string -> string -> bool)
    (d : database) : list Listing.row :=
  order_by_name name_leb
    (map listing_row
         (filter (latest_or_null d) (flat_map (left_join d) (servers d)))).

Definition get_servers (name_leb : string -> string -> bool) (query : fate)
    (user : jwt_payload) (w : world)
    : (Z * rows_body Listing.row) * list read_log :=
  match query with
  | Runs _ => ((200, json_rows (select_server_listing name_leb (db w))), [])
  | Rejects =>
      ((500, json_rows_error "Failed to fetch servers"),
       [error_fetch_servers_failed])
  end.

(** ** [get_server_statistics()] of [db/init.sql] *)

(** Two samples fall in the same group of [DISTINCT ON (server_id)]. *)
Definition same_server_id (a b : option Z) : bool :=
  match a, b with
  | Some x, Some y => x =? y
  | None, None => true
  | _, _ => false
  end.

(** [SELECT DISTINCT ON (server_id) * FROM server_metrics
     ORDER BY server_id, timestamp DESC]: of each group the sample with
    the greatest timestamp, the earliest in the table among equals. *)
Fixpoint keep_latest (m : Metric.row) (kept : list Metric.row)
    : list Metric.row :=
  match kept with
  | [] => [m]
  | x :: rest =>
      if same_server_id (Metric.server_id x) (Metric.server_id m) then
        (if Metric.timestamp x <? Metric.timestamp m then m else x) :: rest
      else x :: keep_latest m rest
  end.

Definition latest_metrics (d : database) : list Metric.row :=
  fold_left (fun kept m => keep_latest m kept) (server_metrics d) [].

(** [servers s LEFT JOIN latest_metrics lm ON s.id = lm.server_id] *)
Definition join_latest (d : database) (s : Server.row)
    : list (Server.row * option Metric.row) :=
  match filter (sample_of (Server.id s)) (latest_metrics d) with
  | [] => [(s, None)]
  | l => map (fun m => (s, Some m)) l
  end.

Definition statistics_rows (d : database)
    : list (Server.row * option Metric.row) :=
  flat_map (join_latest d) (servers d).

Module Statistics.
Record t := mk {
  total_servers : nat;
  online_servers : nat;
  offline_servers : nat;
  avg_cpu_usage : option Q;
  avg_memory_usage : option Q
}.
End Statistics.

(** The values of a sample column over the joined rows; [AVG] skips the
    NULLs of the rows without sample. *)
Definition column (f : Metric.row -> Q)
    (rows : list (Server.row * option Metric.row)) : list Q :=
  flat_map (fun r => match snd r with Some m => [f m] | None => [] end) rows.

Definition with_status (st : server_status)
    (r : Server.row * option Metric.row) : bool :=
  status_eqb (Server.status (fst r)) st.

Definition get_server_statistics (d : database) : Statistics.t :=
  let rows := statistics_rows d in
  Statistics.mk
    (length rows)
    (length (filter (with_status online) rows))
    (length (filter (with_status offline) rows))
    (avg (column Metric.cpu_usage rows))
    (avg (column Metric.memory_usage rows)).

(** ** GET /api/dashboard/summary *)

Section Rendering.

(** [parseFloat(avg).toFixed(1)]: the decimal string with one fraction
    digit that the handler makes of an average. It goes through the
    numeric output of the database and the floating point of JavaScript,
    and is a parameter of everything that follows. *)
Variable toFixed1 : Q -> string.

(** [avg || 0]: a NULL average reads as 0. *)
Definition or_zero (a : option Q) : Q :=
  match a with Some q => q | None => 0%Q end.

(** The summary object built on a cache miss, from the three counting
    queries, the averages of the trailing hour and the handler's clock. *)
Definition compute_summary (d : database) (metrics_now clock : timestamp)
    : Summary.t :=
  let '(avg_cpu, avg_memory, avg_disk) := select_system_metrics metrics_now d in
  Summary.mk
    (count_online_servers d)
    (count_containers d)
    (9997 # 100)%Q
    (fold_left set_count (select_alert_counts d) (Counts.mk 0 0 0))
    (Resources.mk (toFixed1 (or_zero avg_cpu)) (toFixed1 (or_zero avg_memory))
                  (toFixed1 (or_zero avg_disk)))
    clock.

Definition summary_failed (w : world) : response * world :=
  ((500, json_error "Failed to fetch dashboard data"),
   logger error_summary_failed w).

Definition dashboard_summary (e : summary_env) (user : jwt_payload)
    (w : world) : response * world :=
  match cache_get e with
  | Rejects => summary_failed w
  | Runs t_get =>
      match redis_get t_get (redis w) with
      | Some s => ((200, json_summary s), w)
      | None =>
          match counts_query e, metrics_query e with
          | Runs _, Runs t_metrics =>
              let summary := compute_summary (db w) t_metrics (clock e) in
              let w1 := set_gauge (Summary.alerts summary) w in
              match cache_set e with
              | Runs t_set =>
                  ((200, json_summary summary),
                   set_redis (redis_setEx 30 summary t_set) w1)
              | Rejects => summary_failed w1
              end
          | _, _ => summary_failed w
          end
      end
  end.

(** ** Runs of the server *)

Inductive event :=
| ev_summary (auth : authorization) (e : summary_env)
| ev_acknowledge (auth : authorization) (aid : Z) (query : fate)
| ev_restart (auth : authorization) (sid : Z) (query : fate) (clock : timestamp)
| ev_tick (e : tick_env).

Definition handle (ev : event) (w : world) : world :=
  match ev with
  | ev_summary auth e => snd (authenticate auth (dashboard_summary e) w)
  | ev_acknowledge auth aid q => snd (authenticate auth (acknowledge aid q) w)
  | ev_restart auth sid q c => snd (authenticate auth (restart sid q c) w)
  | ev_tick e => health_check e w
  end.

Definition run (evs : list event) (w : world) : world :=
  fold_left (fun w ev => handle ev w) evs w.

(** ** The rows seeded by [initializeDatabase] *)

Definition seed_server (sid : Z) (nm ip : string) (st : server_status)
    : Server.row :=
  Server.mk sid nm ip st None None None 0 0.

Definition seed_alert (aid sid : Z) (sev : alert_severity) (msg : string)
    : Alert.row :=
  Alert.mk aid (Some sid) None sev None msg None
           false None None false None None 0 0.

(** The six sample servers and three sample alerts, inserted at time 0;
    the six random metric samples are left out. *)
Definition sample_db : database :=
  mkDatabase
    [ seed_server 1 "db-prod-01" "10.0.1.10" online;
      seed_server 2 "web-server-01" "10.0.1.20" online;
      seed_server 3 "api-gateway" "10.0.1.30" online;
      seed_server 4 "cache-redis-01" "10.0.1.40" online;
      seed_server 5 "monitoring-01" "10.0.1.50" online;
      seed_server 6 "backup-server" "10.0.1.60" offline ]
    []
    []
    [ seed_alert 1 1 critical "Database CPU usage above 95% for 5 minutes";
      seed_alert 2 2 warning "High memory usage detected";
      seed_alert 3 6 critical "Backup server is offline" ]
    3.

Definition sample_world : world := mkWorld sample_db None None [].

(** ** Vocabulary of the properties *)

Definition is_online (s : Server.row) : bool :=
  status_eqb (Server.status s) online.

(** The count a result set of the grouping query holds for a severity. *)
Fixpoint lookup (groups : list (alert_severity * nat)) (sev : alert_severity)
    : option nat :=
  match groups with
  | [] => None
  | (s, n) :: rest => if severity_eqb s sev then Some n else lookup rest sev
  end.

Definition count_of (groups : list (alert_severity * nat))
    (sev : alert_severity) : nat :=
  match lookup groups sev with Some n => n | None => 0%nat end.

(** An open alert of a given severity. *)
Definition open_with (sev : alert_severity) (a : Alert.row) : bool :=
  negb (Alert.acknowledged a) && severity_eqb (Alert.severity a) sev.

(** The acknowledgment columns of an alert row. *)
Definition ack_state (a : Alert.row) : bool * option Z * option timestamp :=
  (Alert.acknowledged a, Alert.acknowledged_by a, Alert.acknowledged_at a).

(** The flag and the timestamp of acknowledgment go together. *)
Definition ack_consistent (a : Alert.row) : Prop :=
  Alert.acknowledged a = true <-> Alert.acknowledged_at a <> None.

Definition alerts_consistent (d : database) : Prop :=
  Forall ack_consistent (alerts d).

Definition find_alert (aid : Z) (d : database) : option Alert.row :=
  find (fun a => Alert.id a =? aid) (alerts d).

Definition find_server (sid : Z) (d : database) : option Server.row :=
  find (fun s => Server.id s =? sid) (servers d).

(** The open (unacknowledged) alerts that refer to a server. *)
Definition open_for (sid : Z) (a : Alert.row) : bool :=
  negb (Alert.acknowledged a)
  && match Alert.server_id a with Some s => s =? sid | None => false end.

Definition open_alerts_for (sid : Z) (d : database) : list Alert.row :=
  filter (open_for sid) (alerts d).

(** The deduplication key of an alert: server, source and severity. *)
Definition dedup_key (a : Alert.row)
    : option Z * option string * alert_severity :=
  (Alert.server_id a, Alert.source a, Alert.severity a).

(** No query of the loop rejects. *)
Definition fault_free (p : nat -> probe) : Prop :=
  forall i, update_servers (p i) <> Rejects /\ insert_alerts (p i) <> Rejects.

(** How many of the checks of a pass over [rows] were made on server
    [sid] and failed. *)
Fixpoint failed_checks (p : nat -> probe) (i : nat) (rows : list (Z * string))
    (sid : Z) : nat :=
  match rows with
  | [] => 0%nat
  | (s, _) :: rest =>
      Nat.add (if (s =? sid) && negb (isHealthy (p i)) then 1%nat else 0%nat)
              (failed_checks p (S i) rest sid)
  end.

(** Environments used in the examples: every query runs at time [now]
    and every probe has the same outcome, except where overridden. *)
Definition steady (healthy : bool) (now : timestamp) : nat -> probe :=
  fun _ => mkProbe healthy (Runs now) (Runs now) false.

Definition override (p : nat -> probe) (k : nat) (v : probe) : nat -> probe :=
  fun i => if Nat.eqb i k then v else p i.

(** A request for the summary in which every call runs. *)
Definition miss_env : summary_env :=
  mkSummaryEnv (Runs 100) (Runs 100) (Runs 100) 100 (Runs 101).

(** Three actors, one of each role. *)
Definition an_operator : jwt_payload := mkUser 7 operator.
Definition an_admin : jwt_payload := mkUser 8 admin.
Definition a_viewer : jwt_payload := mkUser 9 viewer.

(** Three ticks over the sample data: every server found healthy; the
    first server of the pass found unhealthy; the status update of the
    second server rejecting. *)
Definition tick_all_healthy : tick_env :=
  mkTick (Runs 300) (steady true 300).

Definition tick_first_fails : tick_env :=
  mkTick (Runs 300)
         (override (steady true 300) 0 (mkProbe false (Runs 300) (Runs 301) false)).

Definition tick_second_rejects : tick_env :=
  mkTick (Runs 300)
         (override (steady true 300) 1 (mkProbe true Rejects (Runs 300) false)).

(** ** Vocabulary of the further properties *)



(** The columns of a server that a restart request does not write. *)
Definition server_health (s : Server.row)
    : Z * string * string * server_status * option timestamp * timestamp :=
  (Server.id s, Server.name s, Server.ip_address s, Server.status s,
   Server.last_checked s, Server.created_at s).

(** The columns of a server that no route and no job writes. *)
Definition server_identity (s : Server.row) : Z * string * string * timestamp :=
  (Server.id s, Server.name s, Server.ip_address s, Server.created_at s).

(** The columns of an alert outside its acknowledgment. *)
Definition alert_core (a : Alert.row)
    : Z * option Z * option Z * alert_severity * option string * string
      * option string * timestamp * (bool * option Z * option timestamp) :=
  (Alert.id a, Alert.server_id a, Alert.container_id a, Alert.severity a,
   Alert.source a, Alert.message a, Alert.details a, Alert.created_at a,
   (Alert.resolved a, Alert.resolved_by a, Alert.resolved_at a)).

(** A later state of an alert row: same core, and acknowledged if it was. *)
Definition evolves (a a' : Alert.row) : Prop :=
  alert_core a' = alert_core a
  /\ (Alert.acknowledged a = true -> Alert.acknowledged a' = true).

(** Newest first. *)
Definition newest_first (l : list Alert.row) : Prop :=
  StronglySorted (fun a b => Alert.created_at b <= Alert.created_at a) l.

(** Events other than a summary request. *)
Definition not_summary (ev : event) : bool :=
  match ev with ev_summary _ _ => false | _ => true end.

(** The alert table [l'] carries on the table [l]: it starts with a later
    state of each row of [l], in order, followed by new rows. *)
Definition carried (l l' : list Alert.row) : Prop :=
  exists kept fresh, l' = kept ++ fresh /\ Forall2 evolves l kept.

(** The sample data after the operator acknowledged alert 1 and a tick
    found every server unhealthy. *)
Definition busy_events : list event :=
  [ ev_acknowledge (bearer an_operator) 1 (Runs 100);
    ev_tick (mkTick (Runs 300) (steady false 300));
    ev_acknowledge (bearer an_admin) 1 (Runs 400);
    ev_restart (bearer an_operator) 2 (Runs 500) 500 ].

(** A later state of a server row: the same server, and online only if
    it was. *)
Definition never_revived (s s' : Server.row) : Prop :=
  server_identity s' = server_identity s
  /\ (Server.status s' = online -> Server.status s = online).

(** The world once the summary of the sample data has been cached. *)
Definition cached_world : world :=
  snd (dashboard_summary miss_env a_viewer sample_world).

(** Within a pass, a server is online afterwards only if it was online
    before or is one of the servers the pass goes through. *)
Definition settles (rows : list (Z * string)) (s s' : Server.row) : Prop :=
  server_identity s' = server_identity s
  /\ (Server.status s' = online ->
      Server.status s = online \/ In (Server.id s) (map fst rows)).

(** ** Vocabulary of the sampling pass *)

(** The alert refers to the server. *)
Definition names_server (sid : Z) (a : Alert.row) : bool :=
  match Alert.server_id a with Some s => s =? sid | None => false end.

(** Equality of deduplication keys is decidable. *)
Definition key_eq_dec (k1 k2 : option Z * option string * alert_severity)
    : {k1 = k2} + {k1 <> k2}.
Proof.
  repeat decide equality; try apply Z.eq_dec; apply string_dec.
Defined.

(** An open alert with the given deduplication key. *)
Definition same_key_open (k : option Z * option string * alert_severity)
    (a : Alert.row) : bool :=
  negb (Alert.acknowledged a)
  && if key_eq_dec (dedup_key a) k then true else false.

(** No query of the first [n] iterations rejects. *)
Definition runs_before (p : nat -> probe) (n : nat) : Prop :=
  forall i, (i < n)%nat ->
    update_servers (p i) <> Rejects /\ insert_alerts (p i) <> Rejects.

(** A query of iteration [k] rejects: the status update, or, for a
    server found unhealthy, the insert of its alert. *)
Definition rejects_at (p : nat -> probe) (k : nat) : Prop :=
  update_servers (p k) = Rejects
  \/ (isHealthy (p k) = false /\ insert_alerts (p k) = Rejects).

(** A rendering used in the examples. *)
Definition plain : Q -> string := fun _ => "0.0".

(** * Properties *)

(** ** Counting queries *)

Lemma compute_summary_totalServers d t c :
  Summary.totalServers (compute_summary d t c) = count_online_servers d.
Proof.
  unfold compute_summary.
  destruct (select_system_metrics t d) as [[a b] m]. reflexivity.
Qed.

Lemma compute_summary_alerts d t c :
  Summary.alerts (compute_summary d t c)
  = fold_left set_count (select_alert_counts d) (Counts.mk 0 0 0).
Proof.
  unfold compute_summary.
  destruct (select_system_metrics t d) as [[a b] m]. reflexivity.
Qed.

Lemma status_eqb_online s :
  status_eqb (Server.status s) online
  = match Server.status s with online => true | _ => false end.
Proof. destruct (Server.status s); reflexivity. Qed.

Lemma statuses_partition (l : list Server.row) :
  (length (filter (fun s => match Server.status s with
                            | online => true | _ => false end) l)
   + length (filter (fun s => match Server.status s with
                              | offline => true | _ => false end) l)
   + length (filter (fun s => match Server.status s with
                              | maintenance => true | _ => false end) l)
   + length (filter (fun s => match Server.status s with
                              | degraded => true | _ => false end) l))%nat
  = length l.
Proof.
  induction l as [|s l IH]; simpl; [reflexivity|].
  destruct (Server.status s); simpl; lia.
Qed.

(** C10: on a cache miss [totalServers] is the number of server rows
    whose status is [online]. The rows whose status is [offline],
    [maintenance] or [degraded] are not counted: together with them the
    count makes up the size of the table, and a table with one more row
    in such a status gives the same count, where one more online row
    gives one more. *)
Theorem totalServers_counts_online_only :
  forall (d : database) (metrics_now clock : timestamp),
    Summary.totalServers (compute_summary d metrics_now clock)
    = length (filter (fun s => match Server.status s with
                               | online => true | _ => false end)
                     (servers d))
    /\ (Summary.totalServers (compute_summary d metrics_now clock)
        + length (filter (fun s => match Server.status s with
                                   | offline => true | _ => false end)
                         (servers d))
        + length (filter (fun s => match Server.status s with
                                   | maintenance => true | _ => false end)
                         (servers d))
        + length (filter (fun s => match Server.status s with
                                   | degraded => true | _ => false end)
                         (servers d)))%nat
       = length (servers d)
    /\ forall (s : Server.row),
         Summary.totalServers
           (compute_summary (set_servers (s :: servers d) d) metrics_now clock)
         = match Server.status s with
           | online => S (Summary.totalServers
                            (compute_summary d metrics_now clock))
           | offline | maintenance | degraded =>
               Summary.totalServers (compute_summary d metrics_now clock)
           end.
Proof.
  intros d t c.
  assert (E : forall d', Summary.totalServers (compute_summary d' t c)
              = length (filter (fun s => match Server.status s with
                                         | online => true | _ => false end)
                               (servers d'))).
  { intros d'. rewrite compute_summary_totalServers.
    unfold count_online_servers. f_equal; apply filter_ext;
      intros s; apply status_eqb_online. }
  split; [apply E|]. split.
  - rewrite E. apply statuses_partition.
  - intros s. rewrite !E. cbn [servers set_servers filter].
    destruct (Server.status s); reflexivity.
Qed.

Example totalServers_sample :
  Summary.totalServers (compute_summary sample_db 0 0) = 5%nat
  /\ length (servers sample_db) = 6%nat.
Proof. split; reflexivity. Qed.

(** ** Grouping the open alerts by severity *)

Lemma severity_eqb_eq a b : severity_eqb a b = true <-> a = b.
Proof. destruct a, b; simpl; split; congruence. Qed.

Lemma severity_eqb_refl a : severity_eqb a a = true.
Proof. destruct a; reflexivity. Qed.

Lemma severity_eqb_sym a b : severity_eqb a b = severity_eqb b a.
Proof. destruct a, b; reflexivity. Qed.

Lemma count_of_bump sev groups s :
  count_of (bump sev groups) s
  = (count_of groups s + if severity_eqb sev s then 1 else 0)%nat.
Proof.
  unfold count_of.
  induction groups as [|[k n] rest IH]; simpl.
  - destruct (severity_eqb sev s); reflexivity.
  - destruct (severity_eqb k sev) eqn:Eks; simpl.
    + apply severity_eqb_eq in Eks. subst k.
      destruct (severity_eqb sev s); lia.
    + destruct (severity_eqb k s) eqn:Ek.
      * apply severity_eqb_eq in Ek. subst k.
        rewrite severity_eqb_sym, Eks. lia.
      * exact IH.
Qed.

Lemma bump_keys sev groups k :
  In k (map fst (bump sev groups)) <-> k = sev \/ In k (map fst groups).
Proof.
  induction groups as [|[s n] rest IH]; simpl.
  - intuition congruence.
  - destruct (severity_eqb s sev) eqn:E; simpl.
    + apply severity_eqb_eq in E. subst s. intuition congruence.
    + rewrite IH. tauto.
Qed.

Lemma bump_NoDup sev groups :
  NoDup (map fst groups) -> NoDup (map fst (bump sev groups)).
Proof.
  induction groups as [|[s n] rest IH]; simpl; intros H.
  - constructor; [simpl; tauto | constructor].
  - inversion H as [|? ? Hnotin Hrest]; subst.
    destruct (severity_eqb s sev) eqn:E; simpl.
    + constructor; assumption.
    + constructor; [|auto].
      rewrite bump_keys. intros [->|Hin]; [|tauto].
      rewrite severity_eqb_refl in E. discriminate.
Qed.

Lemma fold_bump_count (rows : list Alert.row) groups s :
  count_of (fold_left (fun g a => bump (Alert.severity a) g) rows groups) s
  = (count_of groups s
     + length (filter (fun a => severity_eqb (Alert.severity a) s) rows))%nat.
Proof.
  revert groups. induction rows as [|a rows IH]; intros groups; simpl.
  - lia.
  - rewrite IH, count_of_bump.
    destruct (severity_eqb (Alert.severity a) s); simpl; lia.
Qed.

Lemma fold_bump_NoDup (rows : list Alert.row) groups :
  NoDup (map fst groups) ->
  NoDup (map fst (fold_left (fun g a => bump (Alert.severity a) g) rows groups)).
Proof.
  revert groups. induction rows as [|a rows IH]; intros groups H; simpl.
  - exact H.
  - apply IH, bump_NoDup, H.
Qed.

Lemma lookup_none groups s :
  ~ In s (map fst groups) -> lookup groups s = None.
Proof.
  induction groups as [|[k n] rest IH]; simpl; intros H; [reflexivity|].
  destruct (severity_eqb k s) eqn:E.
  - apply severity_eqb_eq in E. tauto.
  - apply IH. tauto.
Qed.

Lemma get_count_set_count c row s :
  get_count (set_count c row) s
  = if severity_eqb (fst row) s then snd row else get_count c s.
Proof.
  destruct row as [k n], c as [x y z]. destruct k, s; reflexivity.
Qed.

(** Each severity occurs in at most one result row, so the order in which
    [forEach] visits the rows does not matter. *)
Lemma fold_set_count groups c s :
  NoDup (map fst groups) ->
  get_count (fold_left set_count groups c) s
  = match lookup groups s with Some n => n | None => get_count c s end.
Proof.
  revert c. induction groups as [|[k n] rest IH]; intros c H; simpl.
  - reflexivity.
  - inversion H as [|? ? Hnotin Hrest]; subst.
    rewrite (IH _ Hrest), get_count_set_count. simpl.
    destruct (severity_eqb k s) eqn:E.
    + apply severity_eqb_eq in E. subst k.
      rewrite (lookup_none _ _ Hnotin). reflexivity.
    + reflexivity.
Qed.

Lemma filter_filter_length {A} (p q : A -> bool) (l : list A) :
  length (filter q (filter p l)) = length (filter (fun x => p x && q x) l).
Proof.
  induction l as [|x l IH]; simpl; [reflexivity|].
  destruct (p x); simpl; [destruct (q x); simpl; congruence | exact IH].
Qed.

Lemma summary_alert_count d t c sev :
  get_count (Summary.alerts (compute_summary d t c)) sev
  = length (filter (open_with sev) (alerts d)).
Proof.
  rewrite compute_summary_alerts.
  unfold select_alert_counts, group_by_severity.
  rewrite fold_set_count by (apply fold_bump_NoDup; constructor).
  pose proof (fold_bump_count (filter unacknowledged (alerts d)) [] sev) as H.
  unfold count_of in H at 1.
  destruct (lookup _ sev) as [n|] eqn:E.
  - rewrite H. unfold count_of. simpl. apply filter_filter_length.
  - destruct sev; simpl; rewrite H; unfold count_of; simpl;
      apply filter_filter_length.
Qed.

(** C8: on a cache miss the per-severity counts of the summary are, for
    each severity, the number of alert rows with [acknowledged = false]
    and that severity; [get_alert_summary] of the schema counts the same
    rows. *)
Theorem summary_counts_open_alerts_by_severity :
  forall (d : database) (metrics_now clock : timestamp),
    let s := compute_summary d metrics_now clock in
    (forall sev, get_count (Summary.alerts s) sev
                 = length (filter (open_with sev) (alerts d)))
    /\ get_alert_summary d
       = (Counts.critical (Summary.alerts s),
          Counts.warning (Summary.alerts s),
          Counts.info (Summary.alerts s),
          length (filter unacknowledged (alerts d))).
Proof.
  intros d t c s. split.
  - intros sev. apply summary_alert_count.
  - pose proof (summary_alert_count d t c critical) as Hc.
    pose proof (summary_alert_count d t c warning) as Hw.
    pose proof (summary_alert_count d t c info) as Hi.
    cbn [get_count] in Hc, Hw, Hi. subst s. rewrite Hc, Hw, Hi.
    assert (E : forall sev,
      filter (fun a => severity_eqb (Alert.severity a) sev
                       && negb (Alert.acknowledged a)) (alerts d)
      = filter (open_with sev) (alerts d))
      by (intros sev; apply filter_ext; intros a; apply andb_comm).
    unfold get_alert_summary, count_where. rewrite !E. reflexivity.
Qed.

(** ** The cache-aside read path *)

Lemma redis_get_setEx ttl v t_set now :
  redis_get now (redis_setEx ttl v t_set)
  = if now <? t_set + ttl then Some v else None.
Proof. reflexivity. Qed.

Lemma open_with_explicit sev a :
  open_with sev a
  = negb (Alert.acknowledged a)
    && match sev, Alert.severity a with
       | critical, critical | warning, warning | info, info => true
       | _, _ => false
       end.
Proof.
  unfold open_with. destruct (Alert.acknowledged a), sev, (Alert.severity a);
    reflexivity.
Qed.

Lemma compute_summary_fields d t c :
  Summary.totalContainers (compute_summary d t c) = length (containers d)
  /\ Summary.uptime (compute_summary d t c) = (9997 # 100)%Q
  /\ Summary.lastUpdated (compute_summary d t c) = c
  /\ Summary.resources (compute_summary d t c)
     = Resources.mk
         (toFixed1 (or_zero (avg (map Metric.cpu_usage
                                      (filter (recent t) (server_metrics d))))))
         (toFixed1 (or_zero (avg (map Metric.memory_usage
                                      (filter (recent t) (server_metrics d))))))
         (toFixed1 (or_zero (avg (map Metric.disk_usage
                                      (filter (recent t) (server_metrics d)))))).
Proof. repeat split. Qed.

(** C7: with the cache reachable, a cached and unexpired summary is
    answered as it is, whatever the store holds and whatever would become
    of the store queries, and nothing changes. Otherwise, when the
    queries run, the summary answered is computed from the store as it
    is: the number of online servers, the number of containers, for each
    severity the number of unacknowledged alerts, the rendered averages
    of the samples of the trailing hour (0 without samples) and the
    handler's clock; the store is not written, and the same summary is
    written to the cache, where it is served for exactly thirty
    seconds. *)
Theorem summary_cache_aside :
  forall (e : summary_env) (user : jwt_payload) (w : world) (t_get : timestamp),
    cache_get e = Runs t_get ->
    (forall s, redis_get t_get (redis w) = Some s ->
       dashboard_summary e user w = ((200, json_summary s), w)
       /\ forall d q1 q2 c q3,
            fst (dashboard_summary (mkSummaryEnv (Runs t_get) q1 q2 c q3)
                                   user (set_db d w))
            = (200, json_summary s))
    /\ (redis_get t_get (redis w) = None ->
        forall t_counts t_metrics t_set,
          counts_query e = Runs t_counts ->
          metrics_query e = Runs t_metrics ->
          cache_set e = Runs t_set ->
          let fresh := compute_summary (db w) t_metrics (clock e) in
          let r := dashboard_summary e user w in
          let hour :=
            filter (fun m => t_metrics - 3600 <? Metric.timestamp m)
                   (server_metrics (db w)) in
          let mean (column : Metric.row -> Q) :=
            match map column hour with
            | [] => 0%Q
            | values =>
                (fold_right Qplus 0%Q values
                 / inject_Z (Z.of_nat (length values)))%Q
            end in
          fst r = (200, json_summary fresh)
          /\ db (snd r) = db w
          /\ redis (snd r) = Some (mkEntry fresh (t_set + 30))
          /\ (forall now, redis_get now (redis (snd r))
                          = if now <? t_set + 30 then Some fresh else None)
          /\ Summary.totalServers fresh
             = length (filter (fun s => match Server.status s with
                                        | online => true | _ => false end)
                              (servers (db w)))
          /\ Summary.totalContainers fresh = length (containers (db w))
          /\ Counts.critical (Summary.alerts fresh)
             = length (filter (fun a => negb (Alert.acknowledged a)
                                 && match Alert.severity a with
                                    | critical => true | _ => false end)
                              (alerts (db w)))
          /\ Counts.warning (Summary.alerts fresh)
             = length (filter (fun a => negb (Alert.acknowledged a)
                                 && match Alert.severity a with
                                    | warning => true | _ => false end)
                              (alerts (db w)))
          /\ Counts.info (Summary.alerts fresh)
             = length (filter (fun a => negb (Alert.acknowledged a)
                                 && match Alert.severity a with
                                    | info => true | _ => false end)
                              (alerts (db w)))
          /\ Summary.uptime fresh = (9997 # 100)%Q
          /\ Summary.resources fresh
             = Resources.mk (toFixed1 (mean Metric.cpu_usage))
                            (toFixed1 (mean Metric.memory_usage))
                            (toFixed1 (mean Metric.disk_usage))
          /\ Summary.lastUpdated fresh = clock e).
Proof.
  intros e user w t_get Hget. split.
  - intros s Hhit. split.
    + unfold dashboard_summary. rewrite Hget, Hhit. reflexivity.
    + intros d q1 q2 c q3. unfold dashboard_summary. simpl.
      rewrite Hhit. reflexivity.
  - intros Hmiss t1 t2 t3 H1 H2 H3 fresh r hour mean.
    assert (Er : r = ((200, json_summary fresh),
                      set_redis (redis_setEx 30 fresh t3)
                                (set_gauge (Summary.alerts fresh) w))).
    { subst r fresh. unfold dashboard_summary.
      rewrite Hget, Hmiss, H1, H2, H3. reflexivity. }
    assert (Hcount : forall sev,
      get_count (Summary.alerts fresh) sev
      = length (filter (fun a => negb (Alert.acknowledged a)
                          && match sev, Alert.severity a with
                             | critical, critical | warning, warning
                             | info, info => true
                             | _, _ => false
                             end) (alerts (db w)))).
    { intros sev. subst fresh. rewrite summary_alert_count.
      f_equal; apply filter_ext; intros a; apply open_with_explicit. }
    destruct (compute_summary_fields (db w) t2 (clock e))
      as [Hcont [Hup [Hlast Hres]]]. fold fresh in Hcont, Hup, Hlast, Hres.
    rewrite Er. cbn [fst snd db redis set_redis set_gauge].
    split; [reflexivity|]. split; [reflexivity|]. split; [reflexivity|].
    split; [intros now; reflexivity|].
    split.
    { unfold fresh. rewrite compute_summary_totalServers.
      unfold count_online_servers. f_equal; apply filter_ext;
        intros s; apply status_eqb_online. }
    split; [exact Hcont|].
    split.
    { pose proof (Hcount critical) as Hc. cbn [get_count] in Hc. rewrite Hc.
      f_equal; apply filter_ext; intros a;
        destruct (Alert.severity a); reflexivity. }
    split.
    { pose proof (Hcount warning) as Hc. cbn [get_count] in Hc. rewrite Hc.
      f_equal; apply filter_ext; intros a;
        destruct (Alert.severity a); reflexivity. }
    split.
    { pose proof (Hcount info) as Hc. cbn [get_count] in Hc. rewrite Hc.
      f_equal; apply filter_ext; intros a;
        destruct (Alert.severity a); reflexivity. }
    split; [exact Hup|]. split; [|exact Hlast].
    rewrite Hres. unfold mean, hour, recent, or_zero, avg.
    f_equal;
      match goal with
      | |- context [map ?f ?l] => destruct (map f l); reflexivity
      end.
Qed.

(** ** Acknowledgment *)

Lemma set_alerts_same d : set_alerts (alerts d) (alerts_id_seq d) d = d.
Proof. destruct d; reflexivity. Qed.

Lemma ack_row_other uid aid now a :
  Alert.id a <> aid -> ack_row uid aid now a = a.
Proof.
  intros H. unfold ack_row.
  destruct (Alert.id a =? aid) eqn:E; [apply Z.eqb_eq in E; tauto | reflexivity].
Qed.

Lemma ack_row_hit uid aid now a :
  Alert.id a = aid -> ack_state (ack_row uid aid now a) = (true, Some uid, Some now).
Proof.
  intros H. unfold ack_row. rewrite (proj2 (Z.eqb_eq _ _) H). reflexivity.
Qed.

Lemma ack_row_id uid aid now a : Alert.id (ack_row uid aid now a) = Alert.id a.
Proof. unfold ack_row. destruct (Alert.id a =? aid); reflexivity. Qed.

(** The later of two updates of the same alert decides every column the
    update writes. *)
Lemma ack_row_twice u1 u2 aid t1 t2 a :
  ack_row u2 aid t2 (ack_row u1 aid t1 a) = ack_row u2 aid t2 a.
Proof.
  unfold ack_row. destruct (Alert.id a =? aid) eqn:E; simpl; rewrite E; reflexivity.
Qed.

Lemma update_alert_ack_twice u1 u2 aid t1 t2 d :
  update_alert_ack u2 aid t2 (update_alert_ack u1 aid t1 d)
  = update_alert_ack u2 aid t2 d.
Proof.
  unfold update_alert_ack, set_alerts. simpl. rewrite map_map.
  f_equal. apply map_ext. intros a. apply ack_row_twice.
Qed.

Lemma find_none_forall {A} (p : A -> bool) (l : list A) :
  find p l = None -> forall x, In x l -> p x = false.
Proof. intros H x Hin. exact (find_none p l H x Hin). Qed.

Lemma update_alert_ack_unknown uid aid now d :
  find_alert aid d = None -> update_alert_ack uid aid now d = d.
Proof.
  intros H. unfold update_alert_ack.
  replace (map (ack_row uid aid now) (alerts d)) with (alerts d).
  - apply set_alerts_same.
  - symmetry. rewrite <- (map_id (alerts d)) at 2. apply map_ext_in.
    intros a Hin. apply ack_row_other.
    pose proof (find_none_forall _ _ H a Hin) as E. simpl in E.
    apply Z.eqb_neq. exact E.
Qed.

(** C3, as the code has it: both acknowledgments answer 200 and the alert
    stays acknowledged, but the second one is a write like the first: the
    store ends as if only the second had happened, with the second
    actor and the second timestamp on the alert. *)
Theorem acknowledge_twice_last_wins :
  forall (aid : Z) (u1 u2 : jwt_payload) (t1 t2 : timestamp) (w : world),
    let r1 := authenticate (bearer u1) (acknowledge aid (Runs t1)) w in
    let r2 := authenticate (bearer u2) (acknowledge aid (Runs t2)) (snd r1) in
    fst r1 = (200, json_success)
    /\ fst r2 = (200, json_success)
    /\ db (snd r2)
       = db (snd (authenticate (bearer u2) (acknowledge aid (Runs t2)) w))
    /\ forall a, In a (alerts (db (snd r2))) -> Alert.id a = aid ->
         ack_state a = (true, Some (user_id u2), Some t2).
Proof.
  intros aid u1 u2 t1 t2 w.
  cbn [authenticate acknowledge fst snd db logger set_db]. repeat split.
  - apply update_alert_ack_twice.
  - intros a Hin Hid. rewrite update_alert_ack_twice in Hin.
    unfold update_alert_ack in Hin. cbn [alerts set_alerts] in Hin.
    apply in_map_iff in Hin. destruct Hin as [a0 [<- Hin0]].
    rewrite ack_row_id in Hid. apply ack_row_hit, Hid.
Qed.

Lemma acknowledge_twice_last_wins_witness :
  db (snd (authenticate (bearer an_admin) (acknowledge 1 (Runs 200))
             (snd (authenticate (bearer an_operator) (acknowledge 1 (Runs 100))
                                sample_world))))
  = db (snd (authenticate (bearer an_admin) (acknowledge 1 (Runs 200))
                          sample_world)).
Proof.
  exact (proj1 (proj2 (proj2
    (acknowledge_twice_last_wins 1 an_operator an_admin 100 200 sample_world)))).
Defined.

(** C3 fails as stated: a second acknowledgment of alert 1 moves the
    acknowledgment timestamp, and by another actor also the acknowledger. *)
Lemma second_acknowledgment_rewrites_state :
  let once :=
    snd (authenticate (bearer an_operator) (acknowledge 1 (Runs 100)) sample_world) in
  let again :=
    snd (authenticate (bearer an_operator) (acknowledge 1 (Runs 200)) once) in
  let other :=
    snd (authenticate (bearer an_admin) (acknowledge 1 (Runs 200)) once) in
  option_map ack_state (find_alert 1 (db once)) = Some (true, Some 7, Some 100)
  /\ option_map ack_state (find_alert 1 (db again)) = Some (true, Some 7, Some 200)
  /\ option_map ack_state (find_alert 1 (db other)) = Some (true, Some 8, Some 200)
  /\ option_map ack_state (find_alert 1 (db again))
     <> option_map ack_state (find_alert 1 (db once)).
Proof.
  cbv zeta. repeat split; try reflexivity. vm_compute. discriminate.
Qed.

(** C4, as the code has it: for an id no alert row carries, the request
    never answers 404 and leaves the store as it was; from an
    authenticated caller whose query runs, the answer is 200 with
    [success: true]. *)
Theorem acknowledge_unknown_id_succeeds :
  forall (w : world) (aid : Z) (auth : authorization) (query : fate),
    find_alert aid (db w) = None ->
    let r := authenticate auth (acknowledge aid query) w in
    fst (fst r) <> 404
    /\ db (snd r) = db w
    /\ forall user now, auth = bearer user -> query = Runs now ->
         fst r = (200, json_success).
Proof.
  intros w aid auth query Hnone.
  destruct auth as [| |user]; destruct query as [now|]; simpl;
    repeat split; try discriminate; try reflexivity;
    try (intros; discriminate).
  apply update_alert_ack_unknown, Hnone.
Qed.

Lemma acknowledge_unknown_id_succeeds_witness :
  fst (authenticate (bearer an_operator) (acknowledge 99 (Runs 100)) sample_world)
  = (200, json_success)
  /\ db (snd (authenticate (bearer an_operator) (acknowledge 99 (Runs 100))
                           sample_world)) = sample_db.
Proof.
  destruct (acknowledge_unknown_id_succeeds sample_world 99 (bearer an_operator)
              (Runs 100) eq_refl) as [_ [Hdb Hok]].
  split; [exact (Hok an_operator 100 eq_refl eq_refl) | exact Hdb].
Defined.

(** C4 fails as stated: no alert has id 99, and acknowledging it is
    answered 200 with [success: true], not 404. *)
Lemma acknowledge_unknown_id_not_404 :
  find_alert 99 sample_db = None
  /\ fst (authenticate (bearer an_operator) (acknowledge 99 (Runs 100)) sample_world)
     = (200, json_success)
  /\ fst (fst (authenticate (bearer an_operator) (acknowledge 99 (Runs 100))
                            sample_world)) <> 404.
Proof. repeat split; try reflexivity. vm_compute. discriminate. Qed.

(** C5, as the code has it: the role in the token is never read. An
    authenticated actor of any role, [viewer] included, is answered 200
    when the update runs, and every alert with the requested id is then
    acknowledged in that actor's name; the outcome is the same for any two
    actors with the same id. *)
Theorem acknowledge_ignores_role :
  forall (aid uid : Z) (r : user_role) (now : timestamp) (w : world),
    let out := authenticate (bearer (mkUser uid r)) (acknowledge aid (Runs now)) w in
    fst out = (200, json_success)
    /\ (forall a, In a (alerts (db (snd out))) -> Alert.id a = aid ->
          ack_state a = (true, Some uid, Some now))
    /\ forall (r' : user_role) (query : fate),
         authenticate (bearer (mkUser uid r')) (acknowledge aid query) w
         = authenticate (bearer (mkUser uid r)) (acknowledge aid query) w.
Proof.
  intros aid uid r now w.
  cbn [authenticate acknowledge fst snd db logger set_db user_id]. repeat split.
  intros a Hin Hid. unfold update_alert_ack in Hin. cbn [alerts set_alerts] in Hin.
  apply in_map_iff in Hin. destruct Hin as [a0 [<- Hin0]].
  rewrite ack_row_id in Hid. apply ack_row_hit, Hid.
Qed.

Lemma acknowledge_ignores_role_witness :
  fst (authenticate (bearer (mkUser 9 viewer)) (acknowledge 1 (Runs 100))
                    sample_world)
  = (200, json_success).
Proof.
  exact (proj1 (acknowledge_ignores_role 1 9 viewer 100 sample_world)).
Defined.

(** C5 fails as stated: a viewer acknowledges alert 1 of the sample data,
    is answered 200 rather than 403, and the row is modified. *)
Lemma viewer_acknowledges :
  let out := authenticate (bearer a_viewer) (acknowledge 1 (Runs 100)) sample_world in
  role a_viewer = viewer
  /\ fst out = (200, json_success)
  /\ fst (fst out) <> 403
  /\ option_map ack_state (find_alert 1 sample_db) = Some (false, None, None)
  /\ option_map ack_state (find_alert 1 (db (snd out)))
     = Some (true, Some 9, Some 100).
Proof. cbv zeta. repeat split; try reflexivity. vm_compute. discriminate. Qed.

(** ** The acknowledgment invariant *)

Lemma new_alert_consistent aid sid ip now :
  ack_consistent (new_alert aid sid ip now).
Proof. split; simpl; [discriminate | congruence]. Qed.

Lemma ack_row_consistent uid aid now a :
  ack_consistent a -> ack_consistent (ack_row uid aid now a).
Proof.
  intros H. unfold ack_row. destruct (Alert.id a =? aid); [|exact H].
  split; simpl; [discriminate | reflexivity].
Qed.

Lemma update_alert_ack_consistent uid aid now d :
  alerts_consistent d -> alerts_consistent (update_alert_ack uid aid now d).
Proof.
  unfold alerts_consistent, update_alert_ack. cbn [alerts set_alerts].
  intros H. apply Forall_map. revert H. apply Forall_impl.
  intros a. apply ack_row_consistent.
Qed.

Lemma insert_alert_consistent sid ip now d :
  alerts_consistent d -> alerts_consistent (insert_alert sid ip now d).
Proof.
  unfold alerts_consistent, insert_alert. cbn [alerts set_alerts].
  intros H. apply Forall_app. split; [exact H|].
  constructor; [apply new_alert_consistent | constructor].
Qed.

Lemma health_loop_consistent p rows :
  forall i d, alerts_consistent d ->
              alerts_consistent (snd (health_loop p i rows d)).
Proof.
  induction rows as [|[sid ip] rest IH]; intros i d H; simpl; [exact H|].
  destruct (update_servers (p i)) as [t1|]; [|exact H].
  destruct (isHealthy (p i)).
  - apply IH. exact H.
  - destruct (insert_alerts (p i)) as [t2|];
      [|destruct (insert_draws_id (p i)); exact H].
    apply IH. apply (insert_alert_consistent sid ip t2). exact H.
Qed.

Lemma dashboard_summary_db e user w : db (snd (dashboard_summary e user w)) = db w.
Proof.
  unfold dashboard_summary, summary_failed.
  destruct (cache_get e); [|reflexivity].
  destruct (redis_get _ _); [reflexivity|].
  destruct (counts_query e); [|reflexivity].
  destruct (metrics_query e); [|reflexivity].
  destruct (cache_set e); reflexivity.
Qed.

Lemma health_check_db e w :
  db (health_check e w) = db w
  \/ db (health_check e w)
     = snd (health_loop (probes e) 0 (select_online (db w)) (db w)).
Proof.
  unfold health_check. destruct (select_servers e); [|left; reflexivity].
  right. cbn [db logger].
  destruct (health_loop _ _ _ _) as [[|] d]; reflexivity.
Qed.

Lemma handle_consistent ev w :
  alerts_consistent (db w) -> alerts_consistent (db (handle ev w)).
Proof.
  intros H. destruct ev as [auth e|auth aid q|auth sid q c|e]; simpl.
  - destruct auth; simpl; try exact H. rewrite dashboard_summary_db. exact H.
  - destruct auth; simpl; try exact H.
    destruct q; simpl; [|exact H]. apply update_alert_ack_consistent, H.
  - destruct auth; simpl; try exact H. destruct q; simpl; exact H.
  - destruct (health_check_db e w) as [E|E]; rewrite E; [exact H|].
    apply health_loop_consistent, H.
Qed.

(** C6: in every state the server reaches from a store in which each
    alert has [acknowledged = true] exactly when [acknowledged_at] is set,
    each alert still has; summary requests, acknowledgments, restart
    requests and health-check ticks, whatever the fates of their queries,
    all preserve it, the sampler's insert and the acknowledgment update
    included. *)
Theorem acknowledged_iff_acknowledged_at :
  forall (evs : list event) (w : world),
    alerts_consistent (db w) ->
    alerts_consistent (db (run evs w))
    /\ (forall aid sid ip now, ack_consistent (new_alert aid sid ip now))
    /\ (forall uid aid now a, In a (alerts (db w)) ->
          ack_consistent (ack_row uid aid now a)).
Proof.
  intros evs w H. split; [|split].
  - revert w H. unfold run.
    induction evs as [|ev evs IH]; intros w H; simpl; [exact H|].
    apply IH, handle_consistent, H.
  - intros. apply new_alert_consistent.
  - intros uid aid now a Hin. apply ack_row_consistent.
    unfold alerts_consistent in H. rewrite Forall_forall in H. apply H, Hin.
Qed.

Lemma sample_db_consistent : alerts_consistent sample_db.
Proof.
  unfold alerts_consistent. simpl.
  repeat constructor; simpl; try discriminate; congruence.
Defined.

(** ** The sampling pass *)

Lemma update_server_status_alerts st sid now d :
  alerts (update_server_status st sid now d) = alerts d.
Proof. reflexivity. Qed.

Lemma drawn_alerts (b : bool) d :
  alerts (if b then skip_alert_id d else d) = alerts d.
Proof. destruct b; reflexivity. Qed.

Lemma drawn_servers (b : bool) d :
  servers (if b then skip_alert_id d else d) = servers d.
Proof. destruct b; reflexivity. Qed.

Lemma insert_alert_servers sid ip now d :
  servers (insert_alert sid ip now d) = servers d.
Proof. reflexivity. Qed.

Lemma open_for_new_alert aid s ip now sid :
  open_for sid (new_alert aid s ip now) = (s =? sid).
Proof. reflexivity. Qed.

Lemma open_alerts_insert s ip now sid d :
  length (open_alerts_for sid (insert_alert s ip now d))
  = Nat.add (length (open_alerts_for sid d))
            (if s =? sid then 1%nat else 0%nat).
Proof.
  unfold open_alerts_for, insert_alert. cbn [alerts set_alerts].
  rewrite filter_app, length_app. simpl. rewrite open_for_new_alert.
  destruct (s =? sid); reflexivity.
Qed.

(** The loop only ever appends to the [alerts] table. *)
Lemma health_loop_appends p rows :
  forall i d, exists fresh,
    alerts (snd (health_loop p i rows d)) = alerts d ++ fresh.
Proof.
  induction rows as [|[sid ip] rest IH]; intros i d; simpl.
  - exists []. symmetry. apply app_nil_r.
  - destruct (update_servers (p i)) as [t1|];
      [|exists []; symmetry; apply app_nil_r].
    destruct (isHealthy (p i)).
    + destruct (IH (S i) (update_server_status online sid t1 d)) as [fresh E].
      exists fresh. exact E.
    + destruct (insert_alerts (p i)) as [t2|];
        [|exists []; cbn [snd]; rewrite drawn_alerts; symmetry;
          apply app_nil_r].
      destruct (IH (S i) (insert_alert sid ip t2
                            (update_server_status offline sid t1 d)))
        as [fresh E].
      exists (new_alert (alerts_id_seq d + 1) sid ip t2 :: fresh).
      rewrite E. unfold insert_alert. cbn [alerts set_alerts].
      rewrite <- app_assoc. reflexivity.
Qed.

(** With no query rejecting, the pass completes and every failed check
    of a server adds one open alert for it. *)
Lemma health_loop_open_count p sid rows :
  fault_free p ->
  forall i d,
    fst (health_loop p i rows d) = true
    /\ length (open_alerts_for sid (snd (health_loop p i rows d)))
       = (length (open_alerts_for sid d) + failed_checks p i rows sid)%nat.
Proof.
  intros Hp. induction rows as [|[s ip] rest IH]; intros i d; simpl.
  - split; [reflexivity | lia].
  - destruct (Hp i) as [Hu Hi].
    destruct (update_servers (p i)) as [t1|]; [|congruence].
    destruct (isHealthy (p i)); simpl.
    + destruct (IH (S i) (update_server_status online s t1 d)) as [Hok Hn].
      split; [exact Hok|]. rewrite Hn, andb_false_r. reflexivity.
    + destruct (insert_alerts (p i)) as [t2|]; [|congruence].
      destruct (IH (S i) (insert_alert s ip t2
                            (update_server_status offline s t1 d)))
        as [Hok Hn].
      split; [exact Hok|]. rewrite Hn, open_alerts_insert, andb_true_r.
      unfold open_alerts_for. rewrite update_server_status_alerts. lia.
Qed.

Lemma failed_checks_absent p sid rows :
  ~ In sid (map fst rows) -> forall i, failed_checks p i rows sid = 0%nat.
Proof.
  induction rows as [|[s ip] rest IH]; intros H i; simpl; [reflexivity|].
  simpl in H. destruct (s =? sid) eqn:E.
  - apply Z.eqb_eq in E. tauto.
  - simpl. apply IH. tauto.
Qed.

Lemma failed_checks_once p sid ip rows :
  NoDup (map fst rows) ->
  forall k i,
    nth_error rows k = Some (sid, ip) ->
    isHealthy (p (i + k)%nat) = false ->
    failed_checks p i rows sid = 1%nat.
Proof.
  induction rows as [|[s a] rest IH]; intros Hnd k i Hk Hfail.
  - destruct k; discriminate.
  - simpl in Hnd. inversion Hnd as [|? ? Hnotin Hrest]; subst.
    destruct k as [|k]; simpl in Hk.
    + injection Hk as -> ->. simpl.
      rewrite Nat.add_0_r in Hfail. rewrite Z.eqb_refl, Hfail. simpl.
      rewrite (failed_checks_absent p sid rest Hnotin). reflexivity.
    + simpl. destruct (s =? sid) eqn:E.
      * apply Z.eqb_eq in E. subst s. exfalso. apply Hnotin.
        apply nth_error_In in Hk.
        apply (in_map fst) in Hk. exact Hk.
      * simpl. apply (IH Hrest k (S i) Hk).
        rewrite Nat.add_succ_comm. exact Hfail.
Qed.

Lemma select_online_ids d :
  map fst (select_online d)
  = map Server.id (filter is_online (servers d)).
Proof. unfold select_online. rewrite map_map. reflexivity. Qed.

Lemma NoDup_map_filter {A B} (f : A -> B) (q : A -> bool) (l : list A) :
  NoDup (map f l) -> NoDup (map f (filter q l)).
Proof.
  induction l as [|x l IH]; simpl; intros H; [constructor|].
  inversion H as [|? ? Hnotin Hrest]; subst.
  destruct (q x); simpl; [|auto].
  constructor; [|auto].
  intros Hin. apply Hnotin. apply in_map_iff in Hin.
  destruct Hin as [y [Ey Hy]]. apply filter_In in Hy.
  apply in_map_iff. exists y. tauto.
Qed.

Lemma sample_ids_NoDup : NoDup (map Server.id (servers sample_db)).
Proof. simpl. repeat constructor; simpl; intuition discriminate. Defined.

Lemma tick_first_fails_fault_free : fault_free (probes tick_first_fails).
Proof.
  intros i. simpl. unfold override, steady.
  destruct (Nat.eqb i 0); split; discriminate.
Defined.

(** C1 fails as stated: server 1 of the sample data is online and has one
    open critical alert without source; one failed check leaves it with
    two open alerts under the same deduplication key, the old row
    untouched and a new row inserted. *)
Lemma failed_check_duplicates_open_alert :
  let w' := health_check tick_first_fails sample_world in
  map dedup_key (open_alerts_for 1 sample_db) = [(Some 1, None, critical)]
  /\ map dedup_key (open_alerts_for 1 (db w'))
     = [(Some 1, None, critical); (Some 1, None, critical)]
  /\ map Alert.id (open_alerts_for 1 (db w')) = [1; 4]
  /\ find_alert 1 (db w') = find_alert 1 sample_db
  /\ length (open_alerts_for 1 (db w')) <> 1%nat.
Proof. cbv zeta. repeat split; try reflexivity. vm_compute. discriminate. Qed.

(** *** Servers that are not online *)

Lemma check_row_other st sid now s :
  Server.id s <> sid -> check_row st sid now s = s.
Proof.
  intros H. unfold check_row.
  destruct (Server.id s =? sid) eqn:E; [apply Z.eqb_eq in E; tauto | reflexivity].
Qed.

(** The loop leaves alone every server whose id is not in its list. *)
Lemma health_loop_frame p rows :
  forall i d s,
    In s (servers d) -> ~ In (Server.id s) (map fst rows) ->
    In s (servers (snd (health_loop p i rows d))).
Proof.
  induction rows as [|[sid ip] rest IH]; intros i d s Hin Hout; simpl;
    [exact Hin|].
  simpl in Hout.
  assert (Hkeep : forall st now, In s (servers (update_server_status st sid now d))).
  { intros st now. unfold update_server_status. cbn [servers set_servers].
    apply in_map_iff. exists s. split; [|exact Hin].
    apply check_row_other. intros E. apply Hout. left. symmetry. exact E. }
  destruct (update_servers (p i)) as [t1|]; [|exact Hin].
  destruct (isHealthy (p i)).
  - apply IH; [apply Hkeep | tauto].
  - destruct (insert_alerts (p i)) as [t2|].
    + apply IH; [apply Hkeep | tauto].
    + cbn [snd]. rewrite drawn_servers. apply Hkeep.
Qed.

Lemma NoDup_map_same {A B} (f : A -> B) (l : list A) x y :
  NoDup (map f l) -> In x l -> In y l -> f x = f y -> x = y.
Proof.
  induction l as [|z l IH]; simpl; intros H Hx Hy E; [tauto|].
  inversion H as [|? ? Hnotin Hrest]; subst.
  destruct Hx as [->|Hx], Hy as [->|Hy]; auto.
  - exfalso. apply Hnotin. rewrite E. apply in_map, Hy.
  - exfalso. apply Hnotin. rewrite <- E. apply in_map, Hx.
Qed.

(** A server that is not online is not selected, so no tick touches its
    row: it is never probed and never set back to online. *)
Lemma health_check_skips_not_online e w s :
  NoDup (map Server.id (servers (db w))) ->
  In s (servers (db w)) -> is_online s = false ->
  In s (servers (db (health_check e w))).
Proof.
  intros Hnd Hin Hoff.
  destruct (health_check_db e w) as [E|E]; rewrite E; [exact Hin|].
  apply health_loop_frame; [exact Hin|].
  rewrite select_online_ids. intros Hsel. apply in_map_iff in Hsel.
  destruct Hsel as [s' [Eid Hs']]. apply filter_In in Hs'.
  destruct Hs' as [Hin' Hon].
  rewrite (NoDup_map_same Server.id _ s' s Hnd Hin' Hin Eid) in Hon.
  congruence.
Qed.

(** C2, on the code: server 6 of the sample data is offline; a tick that
    finds every probed server healthy does not select it, and its row,
    status included, is what it was; no alert is inserted. *)
Theorem offline_server_stays_offline :
  let w' := health_check tick_all_healthy sample_world in
  option_map Server.status (find_server 6 sample_db) = Some offline
  /\ map fst (select_online sample_db) = [1; 2; 3; 4; 5]
  /\ find_server 6 (db w') = find_server 6 sample_db
  /\ option_map Server.status (find_server 6 (db w')) = Some offline
  /\ option_map Server.last_checked (find_server 6 (db w')) = Some None
  /\ alerts (db w') = alerts sample_db.
Proof. cbv zeta. repeat split; reflexivity. Qed.

(** ** A pass in which no query rejects *)

Lemma check_row_hit st sid now s :
  Server.id s = sid ->
  Server.id (check_row st sid now s) = sid
  /\ Server.status (check_row st sid now s) = st
  /\ Server.last_checked (check_row st sid now s) = Some now.
Proof.
  intros H. unfold check_row. rewrite (proj2 (Z.eqb_eq _ _) H). simpl. tauto.
Qed.

Lemma check_row_id st sid now s : Server.id (check_row st sid now s) = Server.id s.
Proof. unfold check_row. destruct (Server.id s =? sid); reflexivity. Qed.

Lemma health_loop_checks p rows : forall i d k sid ip t,
  NoDup (map fst rows) ->
  nth_error rows k = Some (sid, ip) ->
  update_servers (p (i + k)%nat) = Runs t ->
  fst (health_loop p i rows d) = true ->
  (exists s, In s (servers d) /\ Server.id s = sid) ->
  exists s',
    In s' (servers (snd (health_loop p i rows d)))
    /\ Server.id s' = sid
    /\ Server.status s' = (if isHealthy (p (i + k)%nat) then online else offline)
    /\ Server.last_checked s' = Some t.
Proof.
  induction rows as [|[s0 ip0] rest IH]; intros i d k sid ip t Hnd Hk Hrun Hok Hex.
  - destruct k; discriminate.
  - simpl in Hnd. inversion Hnd as [|? ? Hnotin Hrest]; subst.
    destruct k as [|k]; simpl in Hk.
    + injection Hk as -> ->. rewrite Nat.add_0_r in *. simpl in *.
      rewrite Hrun in *. destruct Hex as [s [Hin Hid]].
      set (st := if isHealthy (p i) then online else offline) in *.
      destruct (check_row_hit st sid t s Hid) as [H1 [H2 H3]].
      exists (check_row st sid t s).
      assert (Hin1 : In (check_row st sid t s)
                        (servers (update_server_status st sid t d))).
      { unfold update_server_status. cbn [servers set_servers].
        apply in_map, Hin. }
      split; [|tauto].
      destruct (isHealthy (p i)).
      * apply health_loop_frame; [exact Hin1 | rewrite H1; exact Hnotin].
      * destruct (insert_alerts (p i)) as [t2|]; [|discriminate].
        apply health_loop_frame; [exact Hin1 | rewrite H1; exact Hnotin].
    + assert (Hne : s0 <> sid).
      { intros ->. apply Hnotin. apply nth_error_In in Hk.
        apply (in_map fst) in Hk. exact Hk. }
      rewrite <- Nat.add_succ_comm in *. simpl in *.
      destruct (update_servers (p i)) as [t1|]; [|discriminate].
      assert (Hex1 : forall st,
        exists s, In s (servers (update_server_status st s0 t1 d))
                  /\ Server.id s = sid).
      { intros st. destruct Hex as [s [Hin Hid]].
        exists (check_row st s0 t1 s). split.
        - unfold update_server_status. cbn [servers set_servers].
          apply in_map, Hin.
        - rewrite check_row_id. exact Hid. }
      destruct (isHealthy (p i)).
      * apply (IH (S i) _ k sid ip t Hrest Hk Hrun Hok (Hex1 online)).
      * destruct (insert_alerts (p i)) as [t2|]; [|discriminate].
        apply (IH (S i) _ k sid ip t Hrest Hk Hrun Hok). apply (Hex1 offline).
Qed.



(** ** What a pass inserts *)

Lemma health_loop_inserts p rows : forall i d,
  exists fresh,
    alerts (snd (health_loop p i rows d)) = alerts d ++ fresh
    /\ (length fresh <= length rows)%nat
    /\ Forall (fun a => exists sid ip now,
                 In (sid, ip) rows /\ a = new_alert (Alert.id a) sid ip now)
              fresh
    /\ (NoDup (map fst rows) -> NoDup (map Alert.server_id fresh)).
Proof.
  induction rows as [|[sid ip] rest IH]; intros i d; simpl.
  - exists []. rewrite app_nil_r.
    split; [reflexivity|]. split; [apply Nat.le_0_l|].
    split; constructor.
  - assert (Hnone : exists fresh : list Alert.row,
      alerts d = alerts d ++ fresh
      /\ (length fresh <= S (length rest))%nat
      /\ Forall (fun a => exists sid0 ip0 now,
                   ((sid, ip) = (sid0, ip0) \/ In (sid0, ip0) rest)
                   /\ a = new_alert (Alert.id a) sid0 ip0 now) fresh
      /\ (NoDup (sid :: map fst rest) -> NoDup (map Alert.server_id fresh))).
    { exists []. rewrite app_nil_r.
      split; [reflexivity|]. split; [apply Nat.le_0_l|].
      split; constructor. }
    destruct (update_servers (p i)) as [t1|]; [|exact Hnone].
    destruct (isHealthy (p i)).
    + destruct (IH (S i) (update_server_status online sid t1 d))
        as [fresh [E [Hlen [Hall Hnd]]]].
      exists fresh. split; [exact E|]. split; [lia|]. split.
      * revert Hall. apply Forall_impl. intros a [s0 [ip0 [now [Hin Ha]]]].
        exists s0, ip0, now. tauto.
      * intros H. inversion H; subst. auto.
    + destruct (insert_alerts (p i)) as [t2|].
      2:{ cbn [snd]. rewrite drawn_alerts. exact Hnone. }
      destruct (IH (S i) (insert_alert sid ip t2
                            (update_server_status offline sid t1 d)))
        as [fresh [E [Hlen [Hall Hnd]]]].
      exists (new_alert (alerts_id_seq d + 1) sid ip t2 :: fresh).
      split; [|split; [|split]].
      * rewrite E. unfold insert_alert. cbn [alerts set_alerts alerts_id_seq].
        rewrite <- app_assoc. reflexivity.
      * simpl. lia.
      * constructor.
        -- exists sid, ip, t2. split; [left; reflexivity | reflexivity].
        -- revert Hall. apply Forall_impl. intros a [s0 [ip0 [now [Hin Ha]]]].
           exists s0, ip0, now. tauto.
      * intros H. inversion H as [|? ? Hnotin Hrest]; subst. simpl.
        constructor; [|auto]. intros Hin. apply in_map_iff in Hin.
        destruct Hin as [a [Ea Ha]]. rewrite Forall_forall in Hall.
        destruct (Hall a Ha) as [s0 [ip0 [now [Hin0 Ha0]]]].
        rewrite Ha0 in Ea. simpl in Ea. injection Ea as ->.
        apply Hnotin. apply (in_map fst) in Hin0. exact Hin0.
Qed.

(** X17: whatever the fates of its queries, a pass only adds to the
    alerts. With distinct server ids no two of the new rows name the same
    server, so there is at most one new row per server that was online
    when the pass started; each new row is critical, open, unresolved
    and without source, names one of those servers and carries the
    message built from that server's address. *)
Theorem pass_inserts_critical_alerts_for_online_servers :
  forall (e : tick_env) (w : world),
    NoDup (map Server.id (servers (db w))) ->
    exists fresh,
      alerts (db (health_check e w)) = alerts (db w) ++ fresh
      /\ NoDup (map Alert.server_id fresh)
      /\ (length fresh <= count_online_servers (db w))%nat
      /\ Forall (fun a =>
                   Alert.severity a = critical
                   /\ Alert.acknowledged a = false
                   /\ Alert.resolved a = false
                   /\ Alert.source a = None
                   /\ exists s, In s (servers (db w))
                        /\ Server.status s = online
                        /\ Alert.server_id a = Some (Server.id s)
                        /\ Alert.message a
                           = ("Server " ++ Server.ip_address s
                                ++ " is not responding")%string)
                fresh.
Proof.
  intros e w Hids. destruct (health_check_db e w) as [E|E]; rewrite E.
  - exists []. rewrite app_nil_r.
    split; [reflexivity|]. split; [constructor|].
    split; [apply Nat.le_0_l | constructor].
  - destruct (health_loop_inserts (probes e) (select_online (db w)) 0%nat (db w))
      as [fresh [Ef [Hlen [Hall Hnd]]]].
    exists fresh. split; [exact Ef|]. split; [|split].
    + apply Hnd. rewrite select_online_ids. apply NoDup_map_filter, Hids.
    + unfold select_online in Hlen. rewrite length_map in Hlen. exact Hlen.
    + revert Hall. apply Forall_impl. intros a [sid [ip [now [Hin Ha]]]].
      rewrite Ha. simpl. repeat split.
      unfold select_online in Hin. apply in_map_iff in Hin.
      destruct Hin as [s [Es Hs]]. apply filter_In in Hs.
      destruct Hs as [Hs Hon]. injection Es as <- <-.
      exists s. repeat split; [exact Hs|].
      destruct (Server.status s); try discriminate. reflexivity.
Qed.

Lemma pass_inserts_critical_alerts_for_online_servers_witness :
  exists fresh,
    alerts (db (health_check (mkTick (Runs 300) (steady false 300))
                             sample_world))
    = alerts sample_db ++ fresh
    /\ NoDup (map Alert.server_id fresh).
Proof.
  destruct (pass_inserts_critical_alerts_for_online_servers
              (mkTick (Runs 300) (steady false 300)) sample_world
              sample_ids_NoDup) as [fresh [E [Hnd _]]].
  exists fresh. split; [exact E | exact Hnd].
Defined.

(** ** A failed check *)

Lemma same_key_open_new_alert aid s ip now sid :
  same_key_open (Some sid, None, critical) (new_alert aid s ip now)
  = names_server sid (new_alert aid s ip now).
Proof.
  unfold same_key_open, names_server.
  change (dedup_key (new_alert aid s ip now))
    with (Some s, @None string, critical).
  change (Alert.acknowledged (new_alert aid s ip now)) with false.
  change (Alert.server_id (new_alert aid s ip now)) with (Some s).
  cbn [negb andb].
  destruct (key_eq_dec (Some s, None, critical) (Some sid, None, critical))
    as [E|N].
  - injection E as ->. symmetry. apply Z.eqb_refl.
  - destruct (s =? sid) eqn:Es; [|reflexivity].
    apply Z.eqb_eq in Es. subst s. exfalso. apply N. reflexivity.
Qed.

Lemma filter_none {A} (q : A -> bool) (l : list A) :
  (forall x, In x l -> q x = false) -> filter q l = [].
Proof.
  induction l as [|x l IH]; intros H; simpl; [reflexivity|].
  rewrite (H x (or_introl eq_refl)). apply IH. intros y Hy. apply H.
  right. exact Hy.
Qed.

(** In a pass in which no query rejects, the one failed check of a
    server leaves exactly one new row that names it. *)
Lemma health_loop_inserts_once p rows : forall i d k sid ip,
  fault_free p ->
  NoDup (map fst rows) ->
  nth_error rows k = Some (sid, ip) ->
  isHealthy (p (i + k)%nat) = false ->
  exists fresh aid now,
    alerts (snd (health_loop p i rows d)) = alerts d ++ fresh
    /\ filter (names_server sid) fresh = [new_alert aid sid ip now]
    /\ Forall (fun a => exists aid' s' ip' now',
                 a = new_alert aid' s' ip' now') fresh.
Proof.
  induction rows as [|[s0 ip0] rest IH]; intros i d k sid ip Hp Hnd Hk Hfail.
  - destruct k; discriminate.
  - simpl in Hnd. inversion Hnd as [|? ? Hnotin Hrest]; subst.
    destruct (Hp i) as [Hu Hi]. simpl.
    destruct (update_servers (p i)) as [t1|]; [|congruence].
    destruct k as [|k]; simpl in Hk.
    + injection Hk as -> ->. rewrite Nat.add_0_r in Hfail. rewrite Hfail.
      destruct (insert_alerts (p i)) as [t2|]; [|congruence].
      destruct (health_loop_inserts p rest (S i)
                  (insert_alert sid ip t2
                     (update_server_status offline sid t1 d)))
        as [fresh [E [_ [Hall _]]]].
      exists (new_alert (alerts_id_seq d + 1) sid ip t2 :: fresh),
             (alerts_id_seq d + 1), t2.
      split; [|split].
      * rewrite E. unfold insert_alert. cbn [alerts set_alerts alerts_id_seq].
        rewrite <- app_assoc. reflexivity.
      * simpl. unfold names_server at 1. simpl. rewrite Z.eqb_refl. f_equal.
        apply filter_none. intros a Ha.
        rewrite Forall_forall in Hall.
        destruct (Hall a Ha) as [s' [ip' [now' [Hin' Ha']]]].
        rewrite Ha'. unfold names_server. simpl. apply Z.eqb_neq.
        intros ->. apply Hnotin. apply (in_map fst) in Hin'. exact Hin'.
      * constructor; [eexists _, _, _, _; reflexivity|].
        revert Hall. apply Forall_impl.
        intros a [s' [ip' [now' [_ Ha']]]]. eexists _, _, _, _. exact Ha'.
    + assert (Hne : s0 <> sid).
      { intros ->. apply Hnotin. apply nth_error_In in Hk.
        apply (in_map fst) in Hk. exact Hk. }
      rewrite <- Nat.add_succ_comm in Hfail.
      destruct (isHealthy (p i)).
      * destruct (IH (S i) (update_server_status online s0 t1 d) k sid ip
                    Hp Hrest Hk Hfail) as [fresh [aid [now [E H]]]].
        exists fresh, aid, now. split; [exact E | exact H].
      * destruct (insert_alerts (p i)) as [t2|]; [|congruence].
        destruct (IH (S i) (insert_alert s0 ip0 t2
                              (update_server_status offline s0 t1 d))
                    k sid ip Hp Hrest Hk Hfail)
          as [fresh [aid [now [E [Hone Hall]]]]].
        exists (new_alert (alerts_id_seq d + 1) s0 ip0 t2 :: fresh), aid, now.
        split; [|split].
        -- rewrite E. unfold insert_alert.
           cbn [alerts set_alerts alerts_id_seq].
           rewrite <- app_assoc. reflexivity.
        -- simpl. unfold names_server at 1. simpl.
           rewrite (proj2 (Z.eqb_neq _ _) Hne). exact Hone.
        -- constructor; [eexists _, _, _, _; reflexivity | exact Hall].
Qed.

(** C1, as the code has it: the job does not look for an existing alert.
    In a pass in which no query rejects, a failed check of a server
    appends exactly one row that names the server: a critical alert
    without source, open, with the message built from the server's
    address. All earlier rows stay as they were, so the server has one
    more open alert than before, and one more open alert under the very
    key (server, no source, critical) than before. *)
Theorem failed_check_inserts_unconditionally :
  forall (e : tick_env) (w : world) (t : timestamp) (k : nat)
         (sid : Z) (ip : string),
    NoDup (map Server.id (servers (db w))) ->
    select_servers e = Runs t ->
    fault_free (probes e) ->
    nth_error (select_online (db w)) k = Some (sid, ip) ->
    isHealthy (probes e k) = false ->
    length (open_alerts_for sid (db (health_check e w)))
    = S (length (open_alerts_for sid (db w)))
    /\ length (filter (same_key_open (Some sid, None, critical))
                      (alerts (db (health_check e w))))
       = S (length (filter (same_key_open (Some sid, None, critical))
                           (alerts (db w))))
    /\ exists fresh a,
         alerts (db (health_check e w)) = alerts (db w) ++ fresh
         /\ filter (names_server sid) fresh = [a]
         /\ Alert.server_id a = Some sid
         /\ Alert.severity a = critical
         /\ Alert.source a = None
         /\ Alert.acknowledged a = false
         /\ Alert.resolved a = false
         /\ Alert.message a = ("Server " ++ ip ++ " is not responding")%string
         /\ Alert.details a = None.
Proof.
  intros e w t k sid ip Hnd Hsel Hp Hk Hfail.
  assert (E : db (health_check e w)
              = snd (health_loop (probes e) 0 (select_online (db w)) (db w))).
  { unfold health_check. rewrite Hsel. cbn [db logger].
    destruct (health_loop _ _ _ _) as [[|] d]; reflexivity. }
  assert (Hrows : NoDup (map fst (select_online (db w)))).
  { rewrite select_online_ids. apply NoDup_map_filter, Hnd. }
  rewrite E.
  destruct (health_loop_inserts_once (probes e) (select_online (db w)) 0%nat
              (db w) k sid ip Hp Hrows Hk Hfail)
    as [fresh [aid [now [Ef [Hone Hall]]]]].
  split; [|split].
  - destruct (health_loop_open_count (probes e) sid (select_online (db w)) Hp
                0%nat (db w)) as [_ Hn].
    rewrite Hn.
    rewrite (failed_checks_once (probes e) sid ip (select_online (db w))
               Hrows k 0%nat Hk Hfail).
    lia.
  - rewrite Ef, filter_app, length_app.
    replace (filter (same_key_open (Some sid, None, critical)) fresh)
      with (filter (names_server sid) fresh).
    + rewrite Hone. simpl. lia.
    + apply filter_ext_in. intros a Ha. rewrite Forall_forall in Hall.
      destruct (Hall a Ha) as [aid' [s' [ip' [now' ->]]]].
      symmetry. apply same_key_open_new_alert.
  - exists fresh, (new_alert aid sid ip now).
    split; [exact Ef|]. split; [exact Hone|]. repeat split.
Qed.

Lemma failed_check_inserts_unconditionally_witness :
  length (filter (same_key_open (Some 1, None, critical))
                 (alerts (db (health_check tick_first_fails sample_world))))
  = S (length (filter (same_key_open (Some 1, None, critical))
                      (alerts sample_db))).
Proof.
  exact (proj1 (proj2 (failed_check_inserts_unconditionally tick_first_fails
                  sample_world 300 0 1 "10.0.1.10" sample_ids_NoDup eq_refl
                  tick_first_fails_fault_free eq_refl eq_refl))).
Defined.

(** *** A query that rejects *)

Lemma NoDup_app_disjoint {A} (l1 l2 : list A) :
  NoDup (l1 ++ l2) -> NoDup l1 /\ forall x, In x l1 -> In x l2 -> False.
Proof.
  induction l1 as [|a l1 IH]; simpl; intros H.
  - split; [constructor | tauto].
  - inversion H as [|? ? Hnotin Hrest]; subst.
    destruct (IH Hrest) as [Hl1 Hdis]. split.
    + constructor; [|exact Hl1]. intros Hin. apply Hnotin.
      apply in_or_app. left. exact Hin.
    + intros x [<-|Hx] Hx2; [|eauto].
      apply Hnotin. apply in_or_app. right. exact Hx2.
Qed.

(** The loop over two lists in a row. *)
Lemma health_loop_app p l1 l2 : forall i d,
  health_loop p i (l1 ++ l2) d
  = if fst (health_loop p i l1 d)
    then health_loop p (i + length l1) l2 (snd (health_loop p i l1 d))
    else health_loop p i l1 d.
Proof.
  induction l1 as [|[sid ip] l1 IH]; intros i d; simpl.
  - rewrite Nat.add_0_r. reflexivity.
  - destruct (update_servers (p i)) as [t1|]; [|reflexivity].
    rewrite <- Nat.add_succ_comm.
    destruct (isHealthy (p i)); [apply IH|].
    destruct (insert_alerts (p i)) as [t2|]; [apply IH | reflexivity].
Qed.

(** The loop gets through the rows whose queries all run. *)
Lemma health_loop_completes p rows : forall i d,
  (forall j, (j < length rows)%nat ->
     update_servers (p (i + j)%nat) <> Rejects
     /\ insert_alerts (p (i + j)%nat) <> Rejects) ->
  fst (health_loop p i rows d) = true.
Proof.
  induction rows as [|[sid ip] rest IH]; intros i d H; simpl; [reflexivity|].
  destruct (H 0%nat) as [Hu Hi]; [simpl; lia|]. rewrite Nat.add_0_r in Hu, Hi.
  assert (Hrest : forall j, (j < length rest)%nat ->
            update_servers (p (S i + j)%nat) <> Rejects
            /\ insert_alerts (p (S i + j)%nat) <> Rejects).
  { intros j Hj. rewrite Nat.add_succ_comm. apply H. simpl. lia. }
  destruct (update_servers (p i)) as [t1|]; [|congruence].
  destruct (isHealthy (p i)); [apply IH, Hrest|].
  destruct (insert_alerts (p i)) as [t2|]; [apply IH, Hrest | congruence].
Qed.

(** The loop stops at the row for which a query rejects: it inserts
    nothing, goes no further, and has written at most the status of that
    row's server. *)
Lemma health_loop_rejects p k sid ip rest d :
  rejects_at p k ->
  fst (health_loop p k ((sid, ip) :: rest) d) = false
  /\ alerts (snd (health_loop p k ((sid, ip) :: rest) d)) = alerts d
  /\ (update_servers (p k) = Rejects ->
      servers (snd (health_loop p k ((sid, ip) :: rest) d)) = servers d)
  /\ (forall t1, update_servers (p k) = Runs t1 ->
      servers (snd (health_loop p k ((sid, ip) :: rest) d))
      = map (check_row offline sid t1) (servers d)).
Proof.
  intros [Hu|[Hh Hi]]; simpl.
  - rewrite Hu. repeat split; try reflexivity. intros t1 [=].
  - destruct (update_servers (p k)) as [t1|].
    + rewrite Hh, Hi. cbn [fst snd]. rewrite drawn_alerts, drawn_servers.
      repeat split; try reflexivity; [intros [=] | intros t [= <-]; reflexivity].
    + repeat split; try reflexivity. intros t1 [=].
Qed.

(** C9, as the code has it: the loop runs inside the one [try] of the
    job. When the queries for the servers before one server all run and
    a query for that server rejects, its status update or the insert of
    its alert, the pass stops there and the failure is logged in place
    of the completion. The servers before it keep what the pass wrote
    for them; every server after it in the list keeps its row, unchecked;
    no alert is inserted for it or for any server after it; and the
    server itself keeps its row when its update rejected, or is left
    offline without an alert when its insert rejected. *)
Theorem rejected_query_aborts_pass :
  forall (e : tick_env) (w : world) (t : timestamp)
         (before rest : list (Z * string)) (sid : Z) (ip : string),
    NoDup (map Server.id (servers (db w))) ->
    select_servers e = Runs t ->
    select_online (db w) = before ++ (sid, ip) :: rest ->
    runs_before (probes e) (length before) ->
    rejects_at (probes e) (length before) ->
    log (health_check e w)
    = log w ++ [info_running_health_check; error_health_check_failed]
    /\ (forall s, In s (servers (db w)) ->
          In (Server.id s) (map fst rest) ->
          In s (servers (db (health_check e w))))
    /\ (forall k sid' ip' t_k,
          nth_error before k = Some (sid', ip') ->
          update_servers (probes e k) = Runs t_k ->
          exists s',
            In s' (servers (db (health_check e w)))
            /\ Server.id s' = sid'
            /\ Server.status s'
               = (if isHealthy (probes e k) then online else offline)
            /\ Server.last_checked s' = Some t_k)
    /\ (exists fresh,
          alerts (db (health_check e w)) = alerts (db w) ++ fresh
          /\ Forall (fun a => exists s' ip',
                       In (s', ip') before /\ Alert.server_id a = Some s')
                    fresh)
    /\ (update_servers (probes e (length before)) = Rejects ->
        forall s, In s (servers (db w)) -> Server.id s = sid ->
                  In s (servers (db (health_check e w))))
    /\ (forall t1, update_servers (probes e (length before)) = Runs t1 ->
        exists s',
          In s' (servers (db (health_check e w)))
          /\ Server.id s' = sid
          /\ Server.status s' = offline
          /\ Server.last_checked s' = Some t1).
Proof.
  intros e w t before rest sid ip Hids Hsel Hrows Hruns Hrej.
  set (p := probes e) in *. set (d := db w) in *.
  set (d1 := snd (health_loop p 0 before d)).
  set (r := health_loop p (length before) ((sid, ip) :: rest) d1).
  assert (Hok : fst (health_loop p 0 before d) = true).
  { apply health_loop_completes. intros j Hj. apply Hruns, Hj. }
  assert (Eloop : health_loop p 0 (select_online d) d = r).
  { rewrite Hrows, health_loop_app, Hok. reflexivity. }
  destruct (health_loop_rejects p (length before) sid ip rest d1 Hrej)
    as [Hfalse [Halerts [Hsame Hoff]]]. fold r in Hfalse, Halerts, Hsame, Hoff.
  assert (E : health_check e w
              = logger error_health_check_failed
                  (set_db (snd r) (logger info_running_health_check w))).
  { unfold health_check. rewrite Hsel. cbn [db logger]. fold d p.
    rewrite Eloop. destruct r as [ok dr]. simpl in Hfalse. subst ok.
    reflexivity. }
  assert (Hnd : NoDup (map fst (before ++ (sid, ip) :: rest))).
  { rewrite <- Hrows, select_online_ids. apply NoDup_map_filter, Hids. }
  rewrite map_app in Hnd. simpl in Hnd.
  assert (Hsid : ~ In sid (map fst before)).
  { intros Hin. apply NoDup_remove_2 in Hnd. apply Hnd.
    apply in_or_app. left. exact Hin. }
  assert (Hrest : forall x, In x (map fst rest) ->
                            x <> sid /\ ~ In x (map fst before)).
  { intros x Hx. split.
    - intros ->. apply NoDup_app_remove_l in Hnd.
      inversion Hnd; subst. tauto.
    - intros Hb. apply NoDup_remove_1 in Hnd.
      exact (proj2 (NoDup_app_disjoint _ _ Hnd) x Hb Hx). }
  assert (Hbefore : forall k sid' ip', nth_error before k = Some (sid', ip') ->
                      sid' <> sid /\ exists s, In s (servers d)
                                               /\ Server.id s = sid').
  { intros k sid' ip' Hk. apply nth_error_In in Hk. split.
    - intros ->. apply Hsid. apply (in_map fst) in Hk. exact Hk.
    - assert (Hin : In (sid', ip') (select_online d))
        by (rewrite Hrows; apply in_or_app; left; exact Hk).
      unfold select_online in Hin. apply in_map_iff in Hin.
      destruct Hin as [s [Es Hs]]. apply filter_In in Hs.
      exists s. split; [tauto|]. congruence. }
  assert (Hkeep : forall s, In s (servers d1) -> Server.id s <> sid ->
                            In s (servers (snd r))).
  { intros s Hs Hne.
    destruct (update_servers (p (length before))) as [t1|] eqn:Eu.
    - rewrite (Hoff t1 eq_refl). apply in_map_iff. exists s.
      split; [apply check_row_other, Hne | exact Hs].
    - rewrite (Hsame eq_refl). exact Hs. }
  rewrite E. cbn [log db logger set_db]. repeat split.
  - rewrite <- app_assoc. reflexivity.
  - intros s Hin Hr. destruct (Hrest _ Hr) as [Hne Hnb].
    apply Hkeep; [|exact Hne]. apply health_loop_frame; assumption.
  - intros k sid' ip' t_k Hk Hu. destruct (Hbefore k sid' ip' Hk) as [Hne Hex].
    destruct (health_loop_checks p before 0%nat d k sid' ip' t_k) as
      [s' [Hs' [Hid H]]]; trivial.
    { apply NoDup_remove_1 in Hnd.
      exact (proj1 (NoDup_app_disjoint _ _ Hnd)). }
    exists s'. split; [|tauto]. apply Hkeep; [exact Hs' | congruence].
  - destruct (health_loop_inserts p before 0%nat d) as [fresh [Ef [_ [Hall _]]]].
    exists fresh. split; [rewrite Halerts; exact Ef|].
    revert Hall. apply Forall_impl. intros a [s' [ip' [now [Hin Ha]]]].
    exists s', ip'. split; [exact Hin|]. rewrite Ha. reflexivity.
  - intros Hu s Hin Hid. rewrite (Hsame Hu).
    apply health_loop_frame; [exact Hin | rewrite Hid; exact Hsid].
  - intros t1 Hu.
    assert (Hin : In (sid, ip) (select_online d))
      by (rewrite Hrows; apply in_or_app; right; left; reflexivity).
    unfold select_online in Hin. apply in_map_iff in Hin.
    destruct Hin as [s [Es Hs]]. apply filter_In in Hs.
    destruct Hs as [Hs _]. injection Es as Eid _.
    assert (Hs1 : In s (servers d1))
      by (apply health_loop_frame; [exact Hs | rewrite Eid; exact Hsid]).
    destruct (check_row_hit offline sid t1 s Eid) as [H1 [H2 H3]].
    exists (check_row offline sid t1 s). rewrite (Hoff t1 Hu).
    split; [apply in_map, Hs1 | tauto].
Qed.

Lemma tick_second_rejects_runs_before :
  runs_before (probes tick_second_rejects) 1.
Proof.
  intros i Hi. destruct i as [|i]; [|lia]. split; discriminate.
Defined.

Lemma rejected_query_aborts_pass_witness :
  log (health_check tick_second_rejects sample_world)
  = [info_running_health_check; error_health_check_failed].
Proof.
  exact (proj1 (rejected_query_aborts_pass tick_second_rejects sample_world 300
                  [(1, "10.0.1.10")]
                  [(3, "10.0.1.30"); (4, "10.0.1.40"); (5, "10.0.1.50")]
                  2 "10.0.1.20" sample_ids_NoDup eq_refl eq_refl
                  tick_second_rejects_runs_before (or_introl eq_refl))).
Defined.

(** C9 fails as stated: the update for the second server rejects; the
    first server was checked at time 300, and the three online servers
    after the second one are left unchecked by the pass, which ends in the
    error handler. *)
Lemma rejected_update_leaves_rest_unchecked :
  let w' := health_check tick_second_rejects sample_world in
  map fst (select_online sample_db) = [1; 2; 3; 4; 5]
  /\ map (fun s => (Server.id s, Server.last_checked s)) (servers (db w'))
     = [(1, Some 300); (2, None); (3, None); (4, None); (5, None); (6, None)]
  /\ log w' = [info_running_health_check; error_health_check_failed].
Proof. cbv zeta. repeat split; reflexivity. Qed.

(** * Further properties of the routes and of the job *)

(** ** Authentication *)


(** ** Restart requests *)

Lemma restart_row_health uid sid now s :
  server_health (restart_row uid sid now s) = server_health s.
Proof. unfold restart_row. destruct (Server.id s =? sid); reflexivity. Qed.

Lemma restart_row_other uid sid now s :
  Server.id s <> sid -> restart_row uid sid now s = s.
Proof.
  intros H. unfold restart_row.
  destruct (Server.id s =? sid) eqn:E; [apply Z.eqb_eq in E; tauto | reflexivity].
Qed.

Lemma set_servers_same d : set_servers (servers d) d = d.
Proof. destruct d; reflexivity. Qed.

Lemma filter_map_agree {A B} (f : A -> A) (key : A -> B) (q : A -> bool)
    (l : list A) :
  (forall x, key (f x) = key x) ->
  (forall x y, key x = key y -> q x = q y) ->
  map key (filter q (map f l)) = map key (filter q l).
Proof.
  intros Hkey Hq. induction l as [|x l IH]; simpl; [reflexivity|].
  rewrite (Hq (f x) x (Hkey x)). destruct (q x); simpl; congruence.
Qed.

(** X2: a restart request records intent only. Whatever the fate of its
    query, it leaves the alerts, the cache and, for every server, the id,
    name, address, status and last check as they were, so the health
    check selects the same servers after it as before it, in whatever
    order; when the query runs, every server with the requested id
    carries the time and the requester. *)
Theorem restart_records_intent_only :
  forall (sid : Z) (query : fate) (clock : timestamp) (user : jwt_payload)
         (w : world),
    let w' := snd (restart sid query clock user w) in
    map server_health (servers (db w')) = map server_health (servers (db w))
    /\ Permutation (select_online (db w')) (select_online (db w))
    /\ alerts (db w') = alerts (db w)
    /\ redis w' = redis w
    /\ forall now s, query = Runs now -> In s (servers (db w')) ->
         Server.id s = sid ->
         Server.last_restart s = Some now
         /\ Server.restart_requested_by s = Some (user_id user).
Proof.
  intros sid query c user w. destruct query as [now|];
    cbn [restart snd db logger set_db redis].
  - unfold update_server_restart. cbn [servers set_servers alerts].
    repeat split.
    + rewrite map_map. apply map_ext. intros s. apply restart_row_health.
    + apply Permutation_refl'. unfold select_online. cbn [servers set_servers].
      set (q := fun s => status_eqb (Server.status s) online).
      pose proof (filter_map_agree (restart_row (user_id user) sid now)
                    server_health q (servers (db w))
                    (restart_row_health _ _ _)) as H.
      assert (Hq : forall x y, server_health x = server_health y -> q x = q y).
      { intros x y E. unfold q. unfold server_health in E. congruence. }
      specialize (H Hq).
      apply (f_equal (map (fun k : Z * string * string * server_status
                                   * option timestamp * timestamp =>
                             let '(i, _, ip, _, _, _) := k in (i, ip)))) in H.
      rewrite !map_map in H. exact H.
    + injection H as <-.
      apply in_map_iff in H0. destruct H0 as [s0 [<- _]].
      unfold restart_row in *. destruct (Server.id s0 =? sid) eqn:E;
        [reflexivity|]. apply Z.eqb_neq in E. tauto.
    + injection H as <-.
      apply in_map_iff in H0. destruct H0 as [s0 [<- _]].
      unfold restart_row in *. destruct (Server.id s0 =? sid) eqn:E;
        [reflexivity|]. apply Z.eqb_neq in E. tauto.
  - repeat split; try apply Permutation_refl; intros; discriminate.
Qed.

Lemma restart_records_intent_only_witness :
  Permutation
    (select_online
       (db (snd (restart 1 (Runs 500) 500 an_operator sample_world))))
    (select_online sample_db).
Proof.
  exact (proj1 (proj2
    (restart_records_intent_only 1 (Runs 500) 500 an_operator sample_world))).
Defined.

(** X3: a restart request for an id that no server carries is answered
    200 like any other, with the store as it was. *)
Theorem restart_unknown_server_succeeds :
  forall (sid : Z) (now clock : timestamp) (user : jwt_payload) (w : world),
    find_server sid (db w) = None ->
    fst (restart sid (Runs now) clock user w) = (200, json_restart clock)
    /\ db (snd (restart sid (Runs now) clock user w)) = db w.
Proof.
  intros sid now c user w Hnone. cbn [restart fst snd db logger set_db].
  split; [reflexivity|]. unfold update_server_restart.
  replace (map (restart_row (user_id user) sid now) (servers (db w)))
    with (servers (db w)); [apply set_servers_same|].
  symmetry. rewrite <- (map_id (servers (db w))) at 2. apply map_ext_in.
  intros s Hin. apply restart_row_other.
  pose proof (find_none_forall _ _ Hnone s Hin) as E. simpl in E.
  apply Z.eqb_neq. exact E.
Qed.

Lemma restart_unknown_server_succeeds_witness :
  fst (restart 42 (Runs 500) 501 a_viewer sample_world) = (200, json_restart 501)
  /\ db (snd (restart 42 (Runs 500) 501 a_viewer sample_world)) = sample_db.
Proof.
  exact (restart_unknown_server_succeeds 42 500 501 a_viewer sample_world eq_refl).
Defined.

(** ** The life of an alert row *)

Lemma evolves_refl a : evolves a a.
Proof. split; [reflexivity | tauto]. Qed.

Lemma evolves_trans a b c : evolves a b -> evolves b c -> evolves a c.
Proof.
  intros [E1 A1] [E2 A2]. split; [congruence | tauto].
Qed.

Lemma ack_row_evolves uid aid now a : evolves a (ack_row uid aid now a).
Proof.
  unfold ack_row. destruct (Alert.id a =? aid); [|apply evolves_refl].
  split; reflexivity.
Qed.

Lemma Forall2_evolves_refl l : Forall2 evolves l l.
Proof. induction l; constructor; [apply evolves_refl | assumption]. Qed.

Lemma Forall2_evolves_trans l1 : forall l2 l3,
  Forall2 evolves l1 l2 -> Forall2 evolves l2 l3 -> Forall2 evolves l1 l3.
Proof.
  induction l1 as [|a l1 IH]; intros l2 l3 H12 H23.
  - inversion H12; subst. inversion H23; subst. constructor.
  - inversion H12 as [|? b ? l2' Hab H12']; subst.
    inversion H23 as [|? c ? l3' Hbc H23']; subst.
    constructor; [exact (evolves_trans _ _ _ Hab Hbc) | eauto].
Qed.

Lemma carried_refl l : carried l l.
Proof.
  exists l, []. split; [symmetry; apply app_nil_r | apply Forall2_evolves_refl].
Qed.

Lemma carried_trans l1 l2 l3 : carried l1 l2 -> carried l2 l3 -> carried l1 l3.
Proof.
  intros [k1 [f1 [E1 H1]]] [k2 [f2 [E2 H2]]]. subst l2.
  apply Forall2_app_inv_l in H2. destruct H2 as [k2a [k2b [Ha [Hb ->]]]].
  exists k2a, (k2b ++ f2). split.
  - rewrite E2. symmetry. apply app_assoc.
  - exact (Forall2_evolves_trans _ _ _ H1 Ha).
Qed.

Lemma carried_app l fresh : carried l (l ++ fresh).
Proof. exists l, fresh. split; [reflexivity | apply Forall2_evolves_refl]. Qed.

Lemma carried_ack uid aid now l : carried l (map (ack_row uid aid now) l).
Proof.
  exists (map (ack_row uid aid now) l), []. split; [symmetry; apply app_nil_r|].
  induction l; simpl; constructor; [apply ack_row_evolves | assumption].
Qed.

Lemma handle_carried ev w :
  carried (alerts (db w)) (alerts (db (handle ev w))).
Proof.
  destruct ev as [auth e|auth aid q|auth sid q c|e]; simpl.
  - destruct auth; simpl; try apply carried_refl.
    rewrite dashboard_summary_db. apply carried_refl.
  - destruct auth; simpl; try apply carried_refl.
    destruct q; simpl; [apply carried_ack | apply carried_refl].
  - destruct auth; simpl; try apply carried_refl.
    destruct q; simpl; apply carried_refl.
  - destruct (health_check_db e w) as [E|E]; rewrite E; [apply carried_refl|].
    destruct (health_loop_appends (probes e) (select_online (db w)) 0%nat (db w))
      as [fresh Hf].
    rewrite Hf. apply carried_app.
Qed.

Lemma run_carried evs : forall w,
  carried (alerts (db w)) (alerts (db (run evs w))).
Proof.
  unfold run. induction evs as [|ev evs IH]; intros w; simpl.
  - apply carried_refl.
  - exact (carried_trans _ _ _ (handle_carried ev w) (IH (handle ev w))).
Qed.

Lemma Forall2_evolves_core l k :
  Forall2 evolves l k -> map alert_core k = map alert_core l.
Proof.
  induction 1 as [|a b l k [E _] _ IH]; simpl; [reflexivity | congruence].
Qed.

(** X4: no route and no job deletes an alert or rewrites anything but its
    acknowledgment. After any sequence of summary requests,
    acknowledgments, restart requests and ticks, the table starts with
    the rows it had, in order, each with the id, server, severity,
    source, message, details, creation time and resolution it had. *)
Theorem alert_core_is_immutable :
  forall (evs : list event) (w : world),
    exists fresh,
      map alert_core (alerts (db (run evs w)))
      = map alert_core (alerts (db w)) ++ fresh.
Proof.
  intros evs w. destruct (run_carried evs w) as [kept [fresh [E H]]].
  exists (map alert_core fresh).
  rewrite E, map_app, (Forall2_evolves_core _ _ H). reflexivity.
Qed.

Lemma Forall2_evolves_nth l k :
  Forall2 evolves l k ->
  forall i a, nth_error l i = Some a ->
              exists a', nth_error k i = Some a' /\ evolves a a'.
Proof.
  induction 1 as [|a b l k Hab _ IH]; intros i x Hi.
  - destruct i; discriminate.
  - destruct i as [|i]; simpl in *.
    + injection Hi as <-. exists b. split; [reflexivity | exact Hab].
    + apply IH, Hi.
Qed.

(** X5: an acknowledgment is never taken back. An alert that is
    acknowledged stays in its place in the table, with its id, and stays
    acknowledged through every later request and tick. *)
Theorem acknowledgment_is_never_reverted :
  forall (evs : list event) (w : world) (i : nat) (a : Alert.row),
    nth_error (alerts (db w)) i = Some a ->
    Alert.acknowledged a = true ->
    exists a',
      nth_error (alerts (db (run evs w))) i = Some a'
      /\ Alert.id a' = Alert.id a
      /\ Alert.acknowledged a' = true.
Proof.
  intros evs w i a Hi Hack.
  destruct (run_carried evs w) as [kept [fresh [E H]]].
  destruct (Forall2_evolves_nth _ _ H i a Hi) as [a' [Hi' [Hcore Hkeep]]].
  exists a'. rewrite E. split; [|split].
  - rewrite nth_error_app1; [exact Hi'|].
    apply nth_error_Some. congruence.
  - unfold alert_core in Hcore. congruence.
  - apply Hkeep, Hack.
Qed.

(** ** Acknowledgment and the counts *)

Lemma map_ack_row_absent uid aid now l :
  ~ In aid (map Alert.id l) -> map (ack_row uid aid now) l = l.
Proof.
  intros H. rewrite <- (map_id l) at 2. apply map_ext_in.
  intros a Hin. apply ack_row_other. intros E. apply H. rewrite <- E.
  apply in_map, Hin.
Qed.

Lemma open_with_ack_row_hit uid now sev a :
  open_with sev (ack_row uid (Alert.id a) now a) = false.
Proof. unfold ack_row. rewrite Z.eqb_refl. reflexivity. Qed.

Lemma ack_closes_one uid aid now sev l : forall a,
  NoDup (map Alert.id l) ->
  find (fun x => Alert.id x =? aid) l = Some a ->
  Alert.acknowledged a = false ->
  Nat.add (length (filter (open_with sev) (map (ack_row uid aid now) l)))
          (if severity_eqb (Alert.severity a) sev then 1%nat else 0%nat)
  = length (filter (open_with sev) l).
Proof.
  induction l as [|x l IH]; intros a Hnd Hfind Hopen; simpl in *; [discriminate|].
  inversion Hnd as [|? ? Hnotin Hrest]; subst.
  destruct (Alert.id x =? aid) eqn:E.
  - injection Hfind as <-. apply Z.eqb_eq in E. subst aid.
    rewrite open_with_ack_row_hit, (map_ack_row_absent _ _ _ _ Hnotin).
    unfold open_with at 2. rewrite Hopen. simpl.
    destruct (severity_eqb (Alert.severity x) sev); simpl; lia.
  - rewrite ack_row_other by (apply Z.eqb_neq; exact E).
    specialize (IH a Hrest Hfind Hopen).
    destruct (open_with sev x); simpl; lia.
Qed.

(** X6: with distinct alert ids, acknowledging an open alert takes exactly
    one off the summary's count for the alert's severity and leaves the
    counts of the other severities as they were. *)
Theorem acknowledge_closes_one_alert :
  forall (uid aid : Z) (now : timestamp) (d : database) (a : Alert.row),
    NoDup (map Alert.id (alerts d)) ->
    find_alert aid d = Some a ->
    Alert.acknowledged a = false ->
    forall (sev : alert_severity) (t c t' c' : timestamp),
      Nat.add
        (get_count (Summary.alerts
                      (compute_summary (update_alert_ack uid aid now d) t' c'))
                   sev)
        (if severity_eqb (Alert.severity a) sev then 1%nat else 0%nat)
      = get_count (Summary.alerts (compute_summary d t c)) sev.
Proof.
  intros uid aid now d a Hnd Hfind Hopen sev t c t' c'.
  rewrite !summary_alert_count. unfold update_alert_ack.
  cbn [alerts set_alerts]. apply ack_closes_one; assumption.
Qed.

Lemma sample_alert_ids_NoDup : NoDup (map Alert.id (alerts sample_db)).
Proof. simpl. repeat constructor; simpl; intuition discriminate. Defined.

(** ** The listing of open alerts *)

Lemma insert_newest_perm a l : Permutation (insert_newest a l) (a :: l).
Proof.
  induction l as [|b l IH]; simpl; [apply Permutation_refl|].
  destruct (Alert.created_at b <=? Alert.created_at a).
  - apply Permutation_refl.
  - apply perm_trans with (b :: a :: l); [apply perm_skip, IH | apply perm_swap].
Qed.

Lemma order_by_created_at_desc_perm l :
  Permutation (order_by_created_at_desc l) l.
Proof.
  induction l as [|a l IH]; simpl; [apply perm_nil|].
  apply perm_trans with (a :: order_by_created_at_desc l);
    [apply insert_newest_perm | apply perm_skip, IH].
Qed.

Lemma insert_newest_sorted a l :
  newest_first l -> newest_first (insert_newest a l).
Proof.
  unfold newest_first. induction l as [|b l IH]; intros H; simpl.
  - constructor; constructor.
  - inversion H as [|? ? Hl Hb]; subst.
    destruct (Alert.created_at b <=? Alert.created_at a) eqn:E.
    + apply Z.leb_le in E. constructor; [exact H|].
      constructor; [exact E|].
      revert Hb. apply Forall_impl. intros x Hx. lia.
    + apply Z.leb_gt in E. constructor; [apply IH, Hl|].
      apply (Permutation_Forall (Permutation_sym (insert_newest_perm a l))).
      constructor; [lia | exact Hb].
Qed.

Lemma order_by_created_at_desc_sorted l :
  newest_first (order_by_created_at_desc l).
Proof.
  induction l as [|a l IH]; simpl; [constructor|].
  apply insert_newest_sorted, IH.
Qed.

Lemma newest_first_split l1 : forall l2,
  newest_first (l1 ++ l2) ->
  newest_first l1
  /\ forall a b, In a l1 -> In b l2 -> Alert.created_at b <= Alert.created_at a.
Proof.
  unfold newest_first. induction l1 as [|x l1 IH]; intros l2 H; simpl in *.
  - split; [constructor | tauto].
  - inversion H as [|? ? Hl Hx]; subst.
    destruct (IH l2 Hl) as [Hs Hcross]. apply Forall_app in Hx.
    destruct Hx as [Hx1 Hx2]. split; [constructor; assumption|].
    intros a b [<-|Ha] Hb; [|auto].
    rewrite Forall_forall in Hx2. apply Hx2, Hb.
Qed.

Lemma listed_spec sev a :
  listed sev a = true <->
  Alert.acknowledged a = false /\ forall s, sev = Some s -> Alert.severity a = s.
Proof.
  unfold listed, unacknowledged. destruct (Alert.acknowledged a); simpl.
  - split; [discriminate | intros [H _]; discriminate].
  - destruct sev as [s|].
    + rewrite severity_eqb_eq. split.
      * intros E. split; [reflexivity|]. intros s' [= <-]. exact E.
      * intros [_ H]. apply H. reflexivity.
    + split; [|reflexivity]. intros _. split; [reflexivity | discriminate].
Qed.

Lemma In_firstn {A} (n : nat) : forall (l : list A) x,
  In x (firstn n l) -> In x l.
Proof.
  induction n as [|n IH]; intros [|y l] x H; simpl in *; try tauto.
  destruct H as [->|H]; [left; reflexivity | right; apply IH, H].
Qed.

(** X7: GET /api/alerts answers 200 with open alerts only, all of the
    requested severity when one is named, newest first, and never more
    than the requested limit, which is 50 when the request names none. *)
Theorem open_alerts_are_listed_newest_first :
  forall (limit : option nat) (sev : option alert_severity) (now : timestamp)
         (user : jwt_payload) (w : world),
    exists rows,
      get_alerts limit sev (Runs now) user w = ((200, json_rows rows), [])
      /\ (length rows <= match limit with Some n => n | None => 50 end)%nat
      /\ newest_first rows
      /\ Forall (fun a => In a (alerts (db w))
                          /\ Alert.acknowledged a = false
                          /\ match sev with
                             | Some s => Alert.severity a = s
                             | None => True
                             end) rows.
Proof.
  intros limit sev now user w.
  exists (select_open_alerts sev (limit_or_default limit) (db w)).
  split; [reflexivity|]. unfold select_open_alerts.
  set (sorted := order_by_created_at_desc (filter (listed sev) (alerts (db w)))).
  split; [|split].
  - rewrite length_firstn.
    destruct limit; cbn [limit_or_default]; apply Nat.le_min_l.
  - pose proof (order_by_created_at_desc_sorted
                  (filter (listed sev) (alerts (db w)))) as Hs.
    fold sorted in Hs.
    rewrite <- (firstn_skipn (limit_or_default limit) sorted) in Hs.
    apply newest_first_split in Hs. tauto.
  - apply Forall_forall. intros a Hin. apply In_firstn in Hin.
    apply (Permutation_in _ (order_by_created_at_desc_perm _)) in Hin.
    apply filter_In in Hin. destruct Hin as [Hin Hl].
    apply listed_spec in Hl. destruct Hl as [Hopen Hsev].
    split; [exact Hin|]. split; [exact Hopen|].
    destruct sev as [s|]; [apply Hsev; reflexivity | exact I].
Qed.

(** X8: the limit cuts the oldest. The listed rows together with the rows
    left out are exactly the open alerts that match the request, every
    listed row is at least as new as every row left out, and no row is
    left out when the limit is at least the number of matching alerts. *)
Theorem limit_keeps_the_newest :
  forall (sev : option alert_severity) (n : nat) (d : database),
    exists dropped,
      Permutation (select_open_alerts sev n d ++ dropped)
                  (filter (listed sev) (alerts d))
      /\ Forall (fun a => Forall (fun b => Alert.created_at b <= Alert.created_at a)
                                 dropped)
                (select_open_alerts sev n d)
      /\ length dropped = (length (filter (listed sev) (alerts d)) - n)%nat.
Proof.
  intros sev n d. unfold select_open_alerts.
  set (sorted := order_by_created_at_desc (filter (listed sev) (alerts d))).
  exists (skipn n sorted). split; [|split].
  - rewrite firstn_skipn. apply order_by_created_at_desc_perm.
  - pose proof (order_by_created_at_desc_sorted
                  (filter (listed sev) (alerts d))) as Hs.
    fold sorted in Hs. rewrite <- (firstn_skipn n sorted) in Hs.
    apply newest_first_split in Hs. destruct Hs as [_ Hcross].
    apply Forall_forall. intros a Ha. apply Forall_forall. intros b Hb.
    exact (Hcross a b Ha Hb).
  - rewrite length_skipn. unfold sorted.
    rewrite (Permutation_length (order_by_created_at_desc_perm _)).
    reflexivity.
Qed.

(** X9: once the update of an acknowledgment has run, no alert with that
    id is listed any more, whatever the filter and the limit. *)
Theorem acknowledged_alert_is_not_listed :
  forall (uid aid : Z) (now : timestamp) (sev : option alert_severity)
         (n : nat) (d : database),
    Forall (fun a => Alert.id a <> aid)
           (select_open_alerts sev n (update_alert_ack uid aid now d)).
Proof.
  intros uid aid now sev n d. apply Forall_forall. intros a Hin Hid.
  unfold select_open_alerts in Hin. apply In_firstn in Hin.
  apply (Permutation_in _ (order_by_created_at_desc_perm _)) in Hin.
  apply filter_In in Hin. destruct Hin as [Hin Hl].
  apply listed_spec in Hl. destruct Hl as [Hopen _].
  unfold update_alert_ack in Hin. cbn [alerts set_alerts] in Hin.
  apply in_map_iff in Hin. destruct Hin as [a0 [<- _]].
  rewrite ack_row_id in Hid.
  pose proof (ack_row_hit uid aid now a0 Hid) as Hhit.
  unfold ack_state in Hhit. congruence.
Qed.

(** X10: the listing and the summary agree. For each severity, the
    listing filtered by it has as many rows as the summary computed from
    the same store counts, up to the limit. *)
Theorem listing_agrees_with_summary :
  forall (sev : alert_severity) (n : nat) (d : database) (t c : timestamp),
    length (select_open_alerts (Some sev) n d)
    = Nat.min n (get_count (Summary.alerts (compute_summary d t c)) sev).
Proof.
  intros sev n d t c. unfold select_open_alerts.
  rewrite length_firstn, (Permutation_length (order_by_created_at_desc_perm _)).
  rewrite summary_alert_count. f_equal.
Qed.

(** ** The cache under writes and under failure *)

Lemma health_check_cache e w :
  redis (health_check e w) = redis w
  /\ activeAlerts (health_check e w) = activeAlerts w.
Proof.
  unfold health_check. destruct (select_servers e); [|split; reflexivity].
  destruct (health_loop _ _ _ _) as [[|] d]; split; reflexivity.
Qed.

Lemma handle_cache ev w :
  not_summary ev = true ->
  redis (handle ev w) = redis w /\ activeAlerts (handle ev w) = activeAlerts w.
Proof.
  intros H. destruct ev as [auth e|auth aid q|auth sid q c|e]; simpl in *.
  - discriminate.
  - destruct auth; simpl; try (split; reflexivity).
    destruct q; split; reflexivity.
  - destruct auth; simpl; try (split; reflexivity).
    destruct q; split; reflexivity.
  - apply health_check_cache.
Qed.

Lemma run_cache evs : forall w,
  forallb not_summary evs = true ->
  redis (run evs w) = redis w /\ activeAlerts (run evs w) = activeAlerts w.
Proof.
  unfold run. induction evs as [|ev evs IH]; intros w H; simpl in *.
  - split; reflexivity.
  - apply andb_true_iff in H. destruct H as [Hev Hevs].
    destruct (IH (handle ev w) Hevs) as [E1 E2].
    destruct (handle_cache ev w Hev) as [E3 E4]. split; congruence.
Qed.

(** X11: nothing but a summary request writes the cache or the gauge.
    Through any sequence of acknowledgments, restart requests and ticks
    both stay as they are, so a summary that is cached and unexpired is
    still answered as it was cached, whatever has changed in the store
    since. *)
Theorem cached_summary_survives_writes :
  forall (evs : list event) (w : world) (e : summary_env) (user : jwt_payload)
         (t_get : timestamp) (s : Summary.t),
    forallb not_summary evs = true ->
    cache_get e = Runs t_get ->
    redis_get t_get (redis w) = Some s ->
    redis (run evs w) = redis w
    /\ activeAlerts (run evs w) = activeAlerts w
    /\ fst (dashboard_summary e user (run evs w)) = (200, json_summary s).
Proof.
  intros evs w e user t_get s Hevs Hget Hhit.
  destruct (run_cache evs w Hevs) as [Hr Hg]. split; [exact Hr|].
  split; [exact Hg|]. unfold dashboard_summary. rewrite Hget, Hr, Hhit.
  reflexivity.
Qed.

(** X12: the summary depends on the cache being reachable. When the read
    of the cache rejects, the request is answered 500 without the store
    being asked; when the store has answered and the write to the cache
    rejects, the request is answered 500 as well, the cache is as it was
    and the gauge already shows the new counts. The store is never
    written. *)
Theorem summary_fails_with_the_cache :
  forall (e : summary_env) (user : jwt_payload) (w : world),
    db (snd (dashboard_summary e user w)) = db w
    /\ (cache_get e = Rejects ->
        dashboard_summary e user w
        = ((500, json_error "Failed to fetch dashboard data"),
           logger error_summary_failed w))
    /\ (forall t_get t_counts t_metrics,
          cache_get e = Runs t_get ->
          redis_get t_get (redis w) = None ->
          counts_query e = Runs t_counts ->
          metrics_query e = Runs t_metrics ->
          cache_set e = Rejects ->
          fst (dashboard_summary e user w)
          = (500, json_error "Failed to fetch dashboard data")
          /\ redis (snd (dashboard_summary e user w)) = redis w
          /\ activeAlerts (snd (dashboard_summary e user w))
             = Some (Summary.alerts
                       (compute_summary (db w) t_metrics (clock e)))).
Proof.
  intros e user w. split; [apply dashboard_summary_db|]. split.
  - intros H. unfold dashboard_summary. rewrite H. reflexivity.
  - intros t0 t1 t2 H0 Hmiss H1 H2 H3. unfold dashboard_summary.
    rewrite H0, Hmiss, H1, H2, H3. repeat split.
Qed.

(** ** Servers over the runs of the server *)

Lemma check_row_identity st sid now s :
  server_identity (check_row st sid now s) = server_identity s.
Proof. unfold check_row. destruct (Server.id s =? sid); reflexivity. Qed.

Lemma restart_row_identity uid sid now s :
  server_identity (restart_row uid sid now s) = server_identity s.
Proof. unfold restart_row. destruct (Server.id s =? sid); reflexivity. Qed.

Lemma Forall2_map_r {A} (R : A -> A -> Prop) (f : A -> A) (l : list A) :
  (forall x, R x (f x)) -> Forall2 R l (map f l).
Proof. intros H. induction l; simpl; constructor; auto. Qed.

Lemma Forall2_compose {A} (R1 R2 R3 : A -> A -> Prop) :
  (forall a b c, R1 a b -> R2 b c -> R3 a c) ->
  forall l1 l2 l3, Forall2 R1 l1 l2 -> Forall2 R2 l2 l3 -> Forall2 R3 l1 l3.
Proof.
  intros H l1. induction l1 as [|a l1 IH]; intros l2 l3 H12 H23.
  - inversion H12; subst. inversion H23; subst. constructor.
  - inversion H12; subst. inversion H23; subst. constructor; eauto.
Qed.

Lemma Forall2_same {A} (R : A -> A -> Prop) (l : list A) :
  (forall x, R x x) -> Forall2 R l l.
Proof. intros H. induction l; constructor; auto. Qed.

Lemma health_loop_settles p rows : forall i d,
  Forall2 (settles rows) (servers d) (servers (snd (health_loop p i rows d))).
Proof.
  induction rows as [|[sid ip] rest IH]; intros i d; simpl.
  - apply Forall2_same. intros s. split; [reflexivity | tauto].
  - assert (Hstep : forall st now,
      Forall2 (settles [(sid, ip)]) (servers d)
              (servers (update_server_status st sid now d))).
    { intros st now. unfold update_server_status. cbn [servers set_servers].
      apply Forall2_map_r. intros s. split; [apply check_row_identity|].
      unfold check_row. destruct (Server.id s =? sid) eqn:E.
      - apply Z.eqb_eq in E. intros _. right. left. symmetry. exact E.
      - tauto. }
    assert (Hcomp : forall a b c,
      settles [(sid, ip)] a b -> settles rest b c ->
      settles ((sid, ip) :: rest) a c).
    { intros a b c [E1 H1] [E2 H2]. split; [congruence|]. intros Hc.
      assert (Eid : Server.id b = Server.id a)
        by (unfold server_identity in E1; congruence).
      destruct (H2 Hc) as [Hb|Hb].
      - destruct (H1 Hb) as [Ha|[Ha|[]]]; [left; exact Ha|].
        right. left. exact Ha.
      - right. right. rewrite <- Eid. exact Hb. }
    assert (Hnone : Forall2 (settles ((sid, ip) :: rest)) (servers d) (servers d)).
    { apply Forall2_same. intros s. split; [reflexivity | tauto]. }
    destruct (update_servers (p i)) as [t1|]; [|exact Hnone].
    destruct (isHealthy (p i)).
    + exact (Forall2_compose _ _ _ Hcomp _ _ _ (Hstep online t1) (IH (S i) _)).
    + destruct (insert_alerts (p i)) as [t2|].
      * pose proof (IH (S i) (insert_alert sid ip t2
                                (update_server_status offline sid t1 d))) as H2.
        change (servers (insert_alert sid ip t2
                           (update_server_status offline sid t1 d)))
          with (servers (update_server_status offline sid t1 d)) in H2 at 1.
        exact (Forall2_compose _ _ _ Hcomp _ _ _ (Hstep offline t1) H2).
      * cbn [snd]. rewrite drawn_servers.
        apply (Forall2_compose _ _ _ Hcomp _ _ _ (Hstep offline t1)).
        apply Forall2_same. intros s. split; [reflexivity | tauto].
Qed.

Lemma Forall2_identity_ids R l l' :
  (forall s s', R s s' -> server_identity s' = server_identity s) ->
  Forall2 R l l' -> map Server.id l' = map Server.id l.
Proof.
  intros HR. induction 1 as [|s s' l l' H _ IH]; simpl; [reflexivity|].
  f_equal; [|exact IH]. apply HR in H. unfold server_identity in H. congruence.
Qed.

Lemma Forall2_In_l {A} (R : A -> A -> Prop) (P : A -> Prop) l l' :
  Forall2 R l l' -> (forall x, In x l -> P x) ->
  Forall2 (fun a b => R a b /\ P a) l l'.
Proof.
  induction 1 as [|a b l l' Hab _ IH]; intros HP; constructor.
  - split; [assumption|]. apply HP. left. reflexivity.
  - apply IH. intros y Hy. apply HP. right. exact Hy.
Qed.

Lemma handle_never_revives ev w :
  NoDup (map Server.id (servers (db w))) ->
  Forall2 never_revived (servers (db w)) (servers (db (handle ev w))).
Proof.
  intros Hnd.
  assert (Hsame : Forall2 never_revived (servers (db w)) (servers (db w))).
  { apply Forall2_same. intros s. split; [reflexivity | tauto]. }
  destruct ev as [auth e|auth aid q|auth sid q c|e]; simpl.
  - destruct auth; simpl; try exact Hsame.
    rewrite dashboard_summary_db. exact Hsame.
  - destruct auth; simpl; try exact Hsame. destruct q; exact Hsame.
  - destruct auth; simpl; try exact Hsame. destruct q; simpl; [|exact Hsame].
    apply Forall2_map_r. intros s. split; [apply restart_row_identity|].
    unfold restart_row. destruct (Server.id s =? sid); simpl; tauto.
  - destruct (health_check_db e w) as [E|E]; rewrite E; [exact Hsame|].
    pose proof (health_loop_settles (probes e) (select_online (db w)) 0%nat
                  (db w)) as H.
    apply (Forall2_In_l _ (fun s => In s (servers (db w)))) in H; [|auto].
    revert H. apply Forall2_impl. intros s s' [[Eid Hon] Hin].
    split; [exact Eid|]. intros Hs'. destruct (Hon Hs') as [Hs|Hsel];
      [exact Hs|].
    rewrite select_online_ids in Hsel. apply in_map_iff in Hsel.
    destruct Hsel as [s0 [E0 H0]]. apply filter_In in H0.
    destruct H0 as [Hin0 Hon0].
    rewrite (NoDup_map_same Server.id _ s0 s Hnd Hin0 Hin E0) in Hon0.
    unfold is_online in Hon0. destruct (Server.status s); try discriminate.
    reflexivity.
Qed.

Lemma run_never_revives evs : forall w,
  NoDup (map Server.id (servers (db w))) ->
  Forall2 never_revived (servers (db w)) (servers (db (run evs w))).
Proof.
  unfold run. induction evs as [|ev evs IH]; intros w Hnd; simpl.
  - apply Forall2_same. intros s. split; [reflexivity | tauto].
  - pose proof (handle_never_revives ev w Hnd) as H1.
    assert (Hnd' : NoDup (map Server.id (servers (db (handle ev w))))).
    { rewrite (Forall2_identity_ids never_revived _ _
                 (fun s s' H => proj1 H) H1). exact Hnd. }
    refine (Forall2_compose _ _ _ _ _ _ _ H1 (IH _ Hnd')).
    intros a b c [E1 A1] [E2 A2]. split; [congruence | tauto].
Qed.

Lemma never_revived_count l l' :
  Forall2 never_revived l l' ->
  (length (filter is_online l') <= length (filter is_online l))%nat.
Proof.
  induction 1 as [|s s' l l' [_ H] _ IH]; simpl; [lia|].
  destruct (is_online s') eqn:E'.
  - assert (Es : is_online s = true).
    { unfold is_online in *. destruct (Server.status s'); try discriminate.
      rewrite (H eq_refl). reflexivity. }
    rewrite Es. simpl. lia.
  - destruct (is_online s); simpl; lia.
Qed.

(** X13: with distinct server ids, no request and no tick ever brings a
    server online. After any run the table holds the same servers in the
    same order, with the ids, names and addresses they had; each one that
    is online was online at the start; and the server count a freshly
    computed summary reports is at most what it was. *)
Theorem no_server_is_ever_brought_online :
  forall (evs : list event) (w : world),
    NoDup (map Server.id (servers (db w))) ->
    Forall2 never_revived (servers (db w)) (servers (db (run evs w)))
    /\ forall t c t' c',
         (Summary.totalServers (compute_summary (db (run evs w)) t' c')
          <= Summary.totalServers (compute_summary (db w) t c))%nat.
Proof.
  intros evs w Hnd. pose proof (run_never_revives evs w Hnd) as H.
  split; [exact H|]. intros t c t' c'.
  rewrite !compute_summary_totalServers. unfold count_online_servers.
  apply (never_revived_count _ _ H).
Qed.

(** X14: a tick does not touch a server that is not online. Whatever the
    fates of its queries, every row with status offline, maintenance or
    degraded is in the table afterwards exactly as it was, never checked
    and never moved to another status. *)
Theorem tick_skips_servers_not_online :
  forall (e : tick_env) (w : world) (s : Server.row),
    NoDup (map Server.id (servers (db w))) ->
    In s (servers (db w)) ->
    Server.status s <> online ->
    In s (servers (db (health_check e w))).
Proof.
  intros e w s Hnd Hin Hoff. apply health_check_skips_not_online; try assumption.
  unfold is_online. destruct (Server.status s); try reflexivity. tauto.
Qed.

Lemma tick_skips_servers_not_online_witness :
  In (seed_server 6 "backup-server" "10.0.1.60" offline)
     (servers (db (health_check (mkTick (Runs 300) (steady false 300))
                                sample_world))).
Proof.
  apply (tick_skips_servers_not_online (mkTick (Runs 300) (steady false 300))
           sample_world _ sample_ids_NoDup).
  - simpl. tauto.
  - simpl. discriminate.
Defined.

(** ** The listing of servers *)

Lemma fold_max_spec (l : list Metric.row) : forall acc,
  let t := fold_left (fun t x => Z.max t (Metric.timestamp x)) l acc in
  acc <= t
  /\ Forall (fun m => Metric.timestamp m <= t) l
  /\ (t = acc \/ exists m, In m l /\ Metric.timestamp m = t).
Proof.
  induction l as [|x l IH]; intros acc; simpl.
  - split; [lia|]. split; [constructor | left; reflexivity].
  - destruct (IH (Z.max acc (Metric.timestamp x))) as [H1 [H2 H3]].
    split; [lia|]. split; [constructor; [lia | exact H2]|].
    destruct H3 as [E|[m [Hm E]]].
    + destruct (Z.max_spec acc (Metric.timestamp x)) as [[_ E']|[_ E']].
      * right. exists x. split; [left; reflexivity | congruence].
      * left. congruence.
    + right. exists m. split; [right; exact Hm | exact E].
Qed.

Lemma max_timestamp_spec l t :
  max_timestamp l = Some t ->
  Forall (fun m => Metric.timestamp m <= t) l
  /\ exists m, In m l /\ Metric.timestamp m = t.
Proof.
  destruct l as [|x l]; simpl; [discriminate|]. intros [= <-].
  destruct (fold_max_spec l (Metric.timestamp x)) as [H1 [H2 H3]].
  split; [constructor; assumption|].
  destruct H3 as [E|[m [Hm E]]].
  - exists x. split; [left; reflexivity | symmetry; exact E].
  - exists m. split; [right; exact Hm | exact E].
Qed.

Lemma max_timestamp_some l : l <> [] -> exists t, max_timestamp l = Some t.
Proof. destruct l; [tauto | intros _; eexists; reflexivity]. Qed.

Lemma insert_by_name_perm leb r l :
  Permutation (insert_by_name leb r l) (r :: l).
Proof.
  induction l as [|x l IH]; simpl; [apply Permutation_refl|].
  destruct (leb _ _).
  - apply Permutation_refl.
  - apply perm_trans with (x :: r :: l); [apply perm_skip, IH | apply perm_swap].
Qed.

Lemma order_by_name_perm leb l : Permutation (order_by_name leb l) l.
Proof.
  induction l as [|r l IH]; simpl; [apply perm_nil|].
  apply perm_trans with (r :: order_by_name leb l);
    [apply insert_by_name_perm | apply perm_skip, IH].
Qed.

Lemma in_listing leb d r :
  In r (select_server_listing leb d) <->
  exists s x, In s (servers d) /\ In (s, x) (left_join d s)
              /\ latest_or_null d (s, x) = true /\ r = listing_row (s, x).
Proof.
  unfold select_server_listing. split.
  - intros H. apply (Permutation_in _ (order_by_name_perm _ _)) in H.
    apply in_map_iff in H. destruct H as [[s x] [<- H]].
    apply filter_In in H. destruct H as [H Hl].
    apply in_flat_map in H. destruct H as [s0 [Hs0 Hj]].
    assert (s = s0).
    { unfold left_join in Hj. destruct (samples_of _ _); simpl in Hj.
      - destruct Hj as [[=]|[]]. congruence.
      - destruct Hj as [[=]|Hj]; [congruence|].
        apply in_map_iff in Hj. destruct Hj as [m [[=] _]]. congruence. }
    subst s0. exists s, x. tauto.
  - intros [s [x [Hs [Hj [Hl ->]]]]].
    apply (Permutation_in _ (Permutation_sym (order_by_name_perm _ _))).
    apply in_map, filter_In. split; [|exact Hl].
    apply in_flat_map. exists s. tauto.
Qed.

(** X18: GET /api/servers leaves no server out. Whatever the collation,
    every server of the table is in the listing; a row without sample
    columns is the row of a server that has no sample at all, and a row
    with sample columns shows a sample of that server whose timestamp no
    other sample of the server exceeds. *)
Theorem servers_are_listed_with_their_latest_sample :
  forall (name_leb : string -> string -> bool) (now : timestamp)
         (user : jwt_payload) (w : world),
    exists rows,
      get_servers name_leb (Runs now) user w = ((200, json_rows rows), [])
      /\ Forall (fun s => exists r, In r rows /\ Listing.server r = s)
                (servers (db w))
      /\ Forall (fun r =>
                   In (Listing.server r) (servers (db w))
                   /\ match Listing.last_updated r with
                      | None =>
                          samples_of (Server.id (Listing.server r)) (db w) = []
                          /\ r = listing_row (Listing.server r, None)
                      | Some t =>
                          (exists m,
                              In m (samples_of (Server.id (Listing.server r)) (db w))
                              /\ r = listing_row (Listing.server r, Some m))
                          /\ Forall (fun m' => Metric.timestamp m' <= t)
                                    (samples_of (Server.id (Listing.server r))
                                                (db w))
                      end) rows.
Proof.
  intros leb now user w. exists (select_server_listing leb (db w)).
  split; [reflexivity|]. split.
  - apply Forall_forall. intros s Hs.
    destruct (samples_of (Server.id s) (db w)) as [|m0 l0] eqn:El.
    + exists (listing_row (s, None)). split; [|reflexivity].
      apply in_listing. exists s, None. unfold left_join. rewrite El.
      simpl. tauto.
    + destruct (max_timestamp_some (m0 :: l0)) as [t Et]; [discriminate|].
      destruct (max_timestamp_spec _ _ Et) as [_ [m [Hm Em]]].
      exists (listing_row (s, Some m)). split; [|reflexivity].
      apply in_listing. exists s, (Some m). split; [exact Hs|].
      unfold left_join, latest_or_null. rewrite El. cbn [fst snd].
      rewrite El, Et. split; [|split; [apply Z.eqb_eq, Em | reflexivity]].
      apply (in_map (fun m => (s, Some m))), Hm.
  - apply Forall_forall. intros r Hr. apply in_listing in Hr.
    destruct Hr as [s [x [Hs [Hj [Hl ->]]]]].
    destruct x as [m|]; cbn [listing_row snd fst Listing.server
                             Listing.last_updated].
    + split; [exact Hs|].
      assert (Hm : In m (samples_of (Server.id s) (db w))).
      { unfold left_join in Hj. destruct (samples_of _ _) as [|m0 l0];
          simpl in Hj.
        - destruct Hj as [[=]|[]].
        - destruct Hj as [[= <-]|Hj]; [left; reflexivity|].
          apply in_map_iff in Hj. destruct Hj as [m' [[= <-] Hm']].
          right. exact Hm'. }
      split; [exists m; split; [exact Hm | reflexivity]|].
      unfold latest_or_null in Hl. cbn [fst snd] in Hl.
      destruct (max_timestamp _) as [t|] eqn:Et; [|discriminate].
      apply Z.eqb_eq in Hl. rewrite Hl.
      apply (max_timestamp_spec _ _ Et).
    + split; [exact Hs|]. split; [|reflexivity].
      unfold left_join in Hj. destruct (samples_of _ _) as [|m0 l0];
        [reflexivity|]. simpl in Hj. destruct Hj as [[=]|Hj].
      apply in_map_iff in Hj. destruct Hj as [m' [[=] _]].
Qed.

(** ** The three counts *)

Lemma open_counts_add_up (l : list Alert.row) :
  (length (filter (open_with critical) l)
   + length (filter (open_with warning) l)
   + length (filter (open_with info) l))%nat
  = length (filter unacknowledged l).
Proof.
  unfold open_with, unacknowledged.
  induction l as [|a l IH]; simpl; [reflexivity|].
  destruct (Alert.acknowledged a), (Alert.severity a); simpl; lia.
Qed.

(** X19: the severities leave no open alert out. The three counts of a
    freshly computed summary add up to the number of unacknowledged
    alerts in the store, the total that [get_alert_summary] reports. *)
Theorem summary_counts_add_up :
  forall (d : database) (t c : timestamp),
    let counts := Summary.alerts (compute_summary d t c) in
    (Counts.critical counts + Counts.warning counts + Counts.info counts)%nat
    = length (filter unacknowledged (alerts d))
    /\ snd (get_alert_summary d)
       = (Counts.critical counts + Counts.warning counts + Counts.info counts)%nat.
Proof.
  intros d t c counts.
  pose proof (summary_alert_count d t c critical) as Hc.
  pose proof (summary_alert_count d t c warning) as Hw.
  pose proof (summary_alert_count d t c info) as Hi.
  cbn [get_count] in Hc, Hw, Hi. subst counts. rewrite Hc, Hw, Hi.
  rewrite open_counts_add_up. split; reflexivity.
Qed.

(** ** Writes that do not interfere *)

Lemma ack_row_commute u1 a1 t1 u2 a2 t2 a :
  a1 <> a2 ->
  ack_row u1 a1 t1 (ack_row u2 a2 t2 a) = ack_row u2 a2 t2 (ack_row u1 a1 t1 a).
Proof.
  intros Hne. unfold ack_row.
  destruct (Alert.id a =? a2) eqn:E2, (Alert.id a =? a1) eqn:E1; simpl;
    rewrite ?E1, ?E2; try reflexivity.
  apply Z.eqb_eq in E1, E2. congruence.
Qed.

(** X20: acknowledgments of two different alerts do not interfere: in
    either order they leave the same store; and an acknowledgment and a
    restart request leave the same store in either order. *)
Theorem independent_writes_commute :
  forall (u1 u2 : jwt_payload) (a1 a2 : Z) (q1 q2 : fate) (w : world),
    a1 <> a2 ->
    db (snd (acknowledge a1 q1 u1 (snd (acknowledge a2 q2 u2 w))))
    = db (snd (acknowledge a2 q2 u2 (snd (acknowledge a1 q1 u1 w))))
    /\ forall sid c,
         db (snd (restart sid q2 c u2 (snd (acknowledge a1 q1 u1 w))))
         = db (snd (acknowledge a1 q1 u1 (snd (restart sid q2 c u2 w)))).
Proof.
  intros u1 u2 a1 a2 q1 q2 w Hne. split.
  - destruct q1 as [t1|], q2 as [t2|];
      cbn [acknowledge snd db logger set_db]; try reflexivity.
    unfold update_alert_ack, set_alerts. cbn [alerts servers containers
      server_metrics alerts_id_seq]. f_equal. rewrite !map_map.
    apply map_ext. intros a. apply ack_row_commute, Hne.
  - intros sid c. destruct q1 as [t1|], q2 as [t2|]; reflexivity.
Qed.

Lemma independent_writes_commute_witness :
  db (snd (acknowledge 1 (Runs 100) an_operator
             (snd (acknowledge 2 (Runs 90) an_admin sample_world))))
  = db (snd (acknowledge 2 (Runs 90) an_admin
               (snd (acknowledge 1 (Runs 100) an_operator sample_world)))).
Proof.
  apply (independent_writes_commute an_operator an_admin 1 2 (Runs 100)
           (Runs 90) sample_world).
  discriminate.
Defined.

(** ** Server statistics *)

Lemma same_server_id_sample a b sid :
  same_server_id a b = true ->
  match a with Some x => x =? sid | None => false end
  = match b with Some x => x =? sid | None => false end.
Proof.
  destruct a as [x|], b as [y|]; simpl; try discriminate; [|reflexivity].
  intros E. apply Z.eqb_eq in E. subst. reflexivity.
Qed.

Lemma same_server_id_refl a : same_server_id a a = true.
Proof. destruct a; simpl; [apply Z.eqb_refl | reflexivity]. Qed.

Lemma same_server_id_trans a b c :
  same_server_id a b = true -> same_server_id b c = true ->
  same_server_id a c = true.
Proof.
  destruct a, b, c; simpl; try discriminate; try reflexivity.
  rewrite !Z.eqb_eq. congruence.
Qed.

Lemma keep_latest_count sid m kept :
  length (filter (sample_of sid) (keep_latest m kept))
  = if sample_of sid m
    then Nat.max 1 (length (filter (sample_of sid) kept))
    else length (filter (sample_of sid) kept).
Proof.
  induction kept as [|x rest IH]; simpl.
  - destruct (sample_of sid m); reflexivity.
  - destruct (same_server_id (Metric.server_id x) (Metric.server_id m)) eqn:E.
    + pose proof (same_server_id_sample _ _ sid E) as Es.
      fold (sample_of sid x) in Es. fold (sample_of sid m) in Es.
      assert (Ey : sample_of sid (if Metric.timestamp x <? Metric.timestamp m
                                  then m else x) = sample_of sid x).
      { destruct (_ <? _); congruence. }
      simpl. rewrite Ey, <- Es. destruct (sample_of sid x); simpl; lia.
    + cbn [filter]. destruct (sample_of sid m) eqn:Em.
      * assert (Ex : sample_of sid x = false).
        { unfold sample_of in *. destruct (Metric.server_id x) as [a|];
            [|reflexivity].
          destruct (Metric.server_id m) as [b|]; [|discriminate].
          simpl in E. apply Z.eqb_eq in Em. subst b. exact E. }
        rewrite Ex. exact IH.
      * destruct (sample_of sid x); simpl; congruence.
Qed.

Lemma fold_keep_latest_count sid l : forall kept,
  (length (filter (sample_of sid) kept) <= 1)%nat ->
  (length (filter (sample_of sid)
             (fold_left (fun kept m => keep_latest m kept) l kept)) <= 1)%nat.
Proof.
  induction l as [|m l IH]; intros kept H; simpl; [exact H|].
  apply IH. rewrite keep_latest_count. destruct (sample_of sid m); lia.
Qed.

Lemma join_latest_single d s :
  exists x, join_latest d s = [(s, x)].
Proof.
  unfold join_latest.
  pose proof (fold_keep_latest_count (Server.id s) (server_metrics d) []
                (Nat.le_0_l 1)) as H.
  fold (latest_metrics d) in H.
  destruct (filter _ (latest_metrics d)) as [|m [|m' l]]; simpl in *.
  - exists None. reflexivity.
  - exists (Some m). reflexivity.
  - lia.
Qed.

Lemma statistics_rows_servers d : map fst (statistics_rows d) = servers d.
Proof.
  unfold statistics_rows. induction (servers d) as [|s l IH]; simpl;
    [reflexivity|].
  destruct (join_latest_single d s) as [x E]. rewrite E. simpl. congruence.
Qed.

Lemma filter_fst_length {A B} (q : A -> bool) (rows : list (A * B)) :
  length (filter (fun r => q (fst r)) rows) = length (filter q (map fst rows)).
Proof.
  induction rows as [|r rows IH]; simpl; [reflexivity|].
  destruct (q (fst r)); simpl; congruence.
Qed.

Lemma keep_latest_in m kept k :
  In k (keep_latest m kept) -> k = m \/ In k kept.
Proof.
  induction kept as [|x rest IH]; simpl.
  - intros [<-|[]]. left. reflexivity.
  - destruct (same_server_id _ _).
    + destruct (_ <? _); simpl; intuition.
    + simpl. intuition.
Qed.

(** After [keep_latest m], some kept sample of the group of [m] is at
    least as late as [m], and each sample kept before still has one of
    its group at least as late as it. *)
Lemma keep_latest_covers m kept :
  (exists k, In k (keep_latest m kept)
             /\ same_server_id (Metric.server_id k) (Metric.server_id m) = true
             /\ Metric.timestamp m <= Metric.timestamp k)
  /\ forall x, In x kept ->
       exists k, In k (keep_latest m kept)
                 /\ same_server_id (Metric.server_id k) (Metric.server_id x) = true
                 /\ Metric.timestamp x <= Metric.timestamp k.
Proof.
  induction kept as [|y rest [IHm IHk]]; simpl.
  - split; [|tauto]. exists m. split; [left; reflexivity|].
    split; [apply same_server_id_refl | lia].
  - destruct (same_server_id (Metric.server_id y) (Metric.server_id m)) eqn:E.
    + destruct (Metric.timestamp y <? Metric.timestamp m) eqn:Et.
      * apply Z.ltb_lt in Et. split.
        -- exists m. split; [left; reflexivity|].
           split; [apply same_server_id_refl | lia].
        -- intros x [->|Hx].
           ++ exists m. split; [left; reflexivity|]. split; [|lia].
              destruct (Metric.server_id x), (Metric.server_id m); simpl in *;
                try discriminate; try reflexivity.
              rewrite Z.eqb_sym. exact E.
           ++ exists x. split; [right; exact Hx|].
              split; [apply same_server_id_refl | lia].
      * apply Z.ltb_ge in Et. split.
        -- exists y. split; [left; reflexivity|]. tauto.
        -- intros x Hx. exists x. split; [exact Hx|].
           split; [apply same_server_id_refl | lia].
    + split.
      * destruct IHm as [k [Hk H]]. exists k. split; [right; exact Hk | exact H].
      * intros x [->|Hx].
        -- exists x. split; [left; reflexivity|].
           split; [apply same_server_id_refl | lia].
        -- destruct (IHk x Hx) as [k [Hk H]]. exists k.
           split; [right; exact Hk | exact H].
Qed.

Lemma fold_keep_latest_in l : forall kept k,
  In k (fold_left (fun kept m => keep_latest m kept) l kept) ->
  In k kept \/ In k l.
Proof.
  induction l as [|m l IH]; intros kept k H; simpl in *; [tauto|].
  destruct (IH _ _ H) as [Hk|Hk]; [|tauto].
  apply keep_latest_in in Hk. intuition.
Qed.

Lemma fold_keep_latest_covers l : forall kept x,
  In x kept \/ In x l ->
  exists k, In k (fold_left (fun kept m => keep_latest m kept) l kept)
            /\ same_server_id (Metric.server_id k) (Metric.server_id x) = true
            /\ Metric.timestamp x <= Metric.timestamp k.
Proof.
  induction l as [|m l IH]; intros kept x H; simpl in *.
  - destruct H as [H|[]]. exists x. split; [exact H|].
    split; [apply same_server_id_refl | lia].
  - destruct (keep_latest_covers m kept) as [Hm Hkept].
    assert (Hstep : (exists k, In k (keep_latest m kept)
                     /\ same_server_id (Metric.server_id k) (Metric.server_id x) = true
                     /\ Metric.timestamp x <= Metric.timestamp k)
                    \/ In x l).
    { destruct H as [H|[<-|H]]; [left; apply Hkept, H | left; exact Hm
                                 | right; exact H]. }
    destruct Hstep as [[k [Hk [Es Et]]]|Hl].
    + destruct (IH (keep_latest m kept) k (or_introl Hk)) as [k' [Hk' [Es' Et']]].
      exists k'. split; [exact Hk'|].
      split; [exact (same_server_id_trans _ _ _ Es' Es) | lia].
    + apply IH. right. exact Hl.
Qed.

Lemma online_offline_within (rows : list (Server.row * option Metric.row)) :
  (length (filter (with_status online) rows)
   + length (filter (with_status offline) rows) <= length rows)%nat.
Proof.
  unfold with_status. induction rows as [|r rows IH]; simpl; [lia|].
  destruct (Server.status (fst r)); simpl; lia.
Qed.

(** X21: [get_server_statistics] counts every server once, however many
    samples it has: [total_servers] is the number of server rows,
    [online_servers] is the server count of the dashboard summary, and
    online and offline servers together never exceed the total. The
    sample joined to a server is one of its own that none of its samples
    is later than, and a server is joined to no sample only when it has
    none. *)
Theorem server_statistics_count_each_server_once :
  forall (d : database) (t c : timestamp),
    let st := get_server_statistics d in
    Statistics.total_servers st = length (servers d)
    /\ Statistics.online_servers st
       = Summary.totalServers (compute_summary d t c)
    /\ (Statistics.online_servers st + Statistics.offline_servers st
        <= Statistics.total_servers st)%nat
    /\ map fst (statistics_rows d) = servers d
    /\ Forall (fun r =>
                 match snd r with
                 | Some m =>
                     In m (samples_of (Server.id (fst r)) d)
                     /\ Forall (fun m' => Metric.timestamp m' <= Metric.timestamp m)
                               (samples_of (Server.id (fst r)) d)
                 | None => samples_of (Server.id (fst r)) d = []
                 end) (statistics_rows d).
Proof.
  intros d t c st. subst st. unfold get_server_statistics.
  cbn [Statistics.total_servers Statistics.online_servers
       Statistics.offline_servers].
  pose proof (statistics_rows_servers d) as Hrows.
  assert (Hon : length (filter (with_status online) (statistics_rows d))
                = count_online_servers d).
  { unfold with_status.
    rewrite (filter_fst_length (fun s => status_eqb (Server.status s) online)).
    rewrite Hrows. reflexivity. }
  split; [rewrite <- Hrows; symmetry; apply length_map|].
  split; [rewrite compute_summary_totalServers; exact Hon|].
  split.
  - apply online_offline_within.
  - split; [exact Hrows|]. apply Forall_forall. intros [s x] Hr.
    unfold statistics_rows in Hr. apply in_flat_map in Hr.
    destruct Hr as [s0 [Hs0 Hj]]. unfold join_latest in Hj. cbn [fst snd].
    destruct (filter (sample_of (Server.id s0)) (latest_metrics d))
      as [|m0 l0] eqn:El.
    + destruct Hj as [[= <- <-]|[]].
      destruct (samples_of (Server.id s0) d) as [|m l] eqn:Es; [reflexivity|].
      exfalso. assert (Hm : In m (samples_of (Server.id s0) d))
        by (rewrite Es; left; reflexivity).
      apply filter_In in Hm. destruct Hm as [Hm Hsid].
      destruct (fold_keep_latest_covers (server_metrics d) [] m
                  (or_intror Hm)) as [k [Hk [Esame _]]].
      fold (latest_metrics d) in Hk.
      assert (Hin : In k (filter (sample_of (Server.id s0)) (latest_metrics d))).
      { apply filter_In. split; [exact Hk|]. unfold sample_of in *.
        rewrite (same_server_id_sample _ _ (Server.id s0) Esame). exact Hsid. }
      rewrite El in Hin. exact Hin.
    + assert (Hx : exists m, x = Some m /\ s = s0
                             /\ In m (filter (sample_of (Server.id s0))
                                             (latest_metrics d))).
      { rewrite El. simpl in Hj. destruct Hj as [[= <- <-]|Hj].
        - exists m0. split; [reflexivity|]. split; [reflexivity|].
          left. reflexivity.
        - apply in_map_iff in Hj. destruct Hj as [m' [[= <- <-] Hm']].
          exists m'. split; [reflexivity|]. split; [reflexivity|].
          right. exact Hm'. }
      destruct Hx as [m [-> [-> Hm]]]. apply filter_In in Hm.
      destruct Hm as [Hm Hsid]. split.
      * apply filter_In. split; [|exact Hsid].
        destruct (fold_keep_latest_in (server_metrics d) [] m Hm) as [[]|H].
        exact H.
      * apply Forall_forall. intros m' Hm'. apply filter_In in Hm'.
        destruct Hm' as [Hm' Hsid'].
        destruct (fold_keep_latest_covers (server_metrics d) [] m'
                    (or_intror Hm')) as [k [Hk [Esame Hle]]].
        fold (latest_metrics d) in Hk.
        assert (Hkm : k = m).
        { assert (Hkf : In k (filter (sample_of (Server.id s0))
                                     (latest_metrics d))).
          { apply filter_In. split; [exact Hk|]. unfold sample_of in *.
            rewrite (same_server_id_sample _ _ (Server.id s0) Esame).
            exact Hsid'. }
          assert (Hmf : In m (filter (sample_of (Server.id s0))
                                     (latest_metrics d)))
            by (apply filter_In; tauto).
          pose proof (fold_keep_latest_count (Server.id s0) (server_metrics d)
                        [] (Nat.le_0_l 1)) as Hone.
          fold (latest_metrics d) in Hone.
          destruct (filter (sample_of (Server.id s0)) (latest_metrics d))
            as [|a [|b l]]; simpl in *; try lia; try tauto.
          destruct Hkf as [<-|[]], Hmf as [<-|[]]. reflexivity. }
        subst k. exact Hle.
Qed.

End Rendering.

(** ** Instances on the sample data *)

Lemma summary_cache_aside_witness :
  fst (dashboard_summary plain miss_env (mkUser 1 viewer) sample_world)
  = (200, json_summary (compute_summary plain sample_db 100 100))
  /\ fst (dashboard_summary plain miss_env (mkUser 1 viewer)
            (snd (dashboard_summary plain miss_env (mkUser 1 viewer) sample_world)))
     = (200, json_summary (compute_summary plain sample_db 100 100)).
Proof.
  split.
  - destruct (summary_cache_aside plain miss_env (mkUser 1 viewer) sample_world 100
                eq_refl) as [_ Hmiss].
    destruct (Hmiss eq_refl 100 100 101 eq_refl eq_refl eq_refl) as [H _].
    exact H.
  - destruct (summary_cache_aside plain miss_env (mkUser 1 viewer)
                (snd (dashboard_summary plain miss_env (mkUser 1 viewer) sample_world))
                100 eq_refl) as [Hhit _].
    destruct (Hhit (compute_summary plain sample_db 100 100) eq_refl) as [H _].
    rewrite H. reflexivity.
Defined.

Lemma acknowledged_iff_acknowledged_at_witness :
  alerts_consistent
    (db (run plain [ ev_tick (mkTick (Runs 300) (steady false 300));
               ev_acknowledge (bearer an_operator) 4 (Runs 400);
               ev_summary (bearer a_viewer) miss_env ]
             sample_world)).
Proof.
  exact (proj1 (acknowledged_iff_acknowledged_at plain _ sample_world
                  sample_db_consistent)).
Defined.


Lemma acknowledgment_is_never_reverted_witness :
  exists a',
    nth_error
      (alerts (db (run plain busy_events
                       (handle plain (ev_acknowledge (bearer a_viewer) 2 (Runs 50))
                               sample_world)))) 1 = Some a'
    /\ Alert.id a' = 2
    /\ Alert.acknowledged a' = true.
Proof.
  exact (acknowledgment_is_never_reverted plain busy_events
           (handle plain (ev_acknowledge (bearer a_viewer) 2 (Runs 50)) sample_world)
           1 _ eq_refl eq_refl).
Defined.

Lemma acknowledge_closes_one_alert_witness :
  Nat.add
    (get_count (Summary.alerts
                  (compute_summary plain (update_alert_ack 7 3 100 sample_db) 200 200))
               critical) 1
  = get_count (Summary.alerts (compute_summary plain sample_db 0 0)) critical.
Proof.
  exact (acknowledge_closes_one_alert plain 7 3 100 sample_db _ sample_alert_ids_NoDup
           eq_refl eq_refl critical 0 0 200 200).
Defined.

Lemma cached_summary_survives_writes_witness :
  fst (dashboard_summary plain (mkSummaryEnv (Runs 120) Rejects Rejects 120 Rejects)
                         an_admin (run plain busy_events (cached_world plain)))
  = (200, json_summary (compute_summary plain sample_db 100 100)).
Proof.
  exact (proj2 (proj2 (cached_summary_survives_writes plain busy_events (cached_world plain)
           (mkSummaryEnv (Runs 120) Rejects Rejects 120 Rejects) an_admin 120
           (compute_summary plain sample_db 100 100) eq_refl eq_refl eq_refl))).
Defined.

Lemma summary_fails_with_the_cache_witness :
  dashboard_summary plain (mkSummaryEnv Rejects (Runs 1) (Runs 1) 1 (Runs 1))
                    an_admin sample_world
  = ((500, json_error "Failed to fetch dashboard data"),
     logger error_summary_failed sample_world).
Proof.
  exact (proj1 (proj2 (summary_fails_with_the_cache plain
           (mkSummaryEnv Rejects (Runs 1) (Runs 1) 1 (Runs 1))
           an_admin sample_world)) eq_refl).
Defined.

Lemma no_server_is_ever_brought_online_witness :
  Nat.le
    (Summary.totalServers (compute_summary plain (db (run plain busy_events sample_world)) 9 9))
    (Summary.totalServers (compute_summary plain sample_db 0 0)).
Proof.
  exact (proj2 (no_server_is_ever_brought_online plain busy_events sample_world
                  sample_ids_NoDup) 0 0 9 9).
Defined.
